(** * fse-node: tuit and user resources over a document database

    A shallow embedding of the controller, data-access and schema layers:
    - [src/mongoose/TuitSchema.ts] and the second declaration of the tuits
      schema (the one with media fields and a [stats] block);
    - [src/daos/UserDao.ts];
    - the tuits controller (routes and handlers).

    JavaScript objects are finite maps from field names to values, a
    collection is the list of its documents in insertion order, and every
    asynchronous method is a function from the collection to a settled
    promise and the collection afterwards. *)

From stdpp Require Import gmap strings list fin_maps.
From Stdlib Require Import ZArith Ascii.

#[local] Set Warnings "-register-all".

(** ** Values and documents *)

(** A JavaScript value as it is stored in a document or sent as JSON.
    Numbers are the integers (the counters of the schema), a date is its
    number of milliseconds, an identifier is the text of the key. *)
Inductive value :=
  | VNull
  | VBool (b : bool)
  | VNum (n : Z)
  | VStr (s : string)
  | VDate (t : Z)
  | VArr (items : list value)
  | VObj (fields : gmap string value).

Fixpoint value_eq_dec (v w : value) {struct v} : Decision (v = w).
Proof.
  refine (match v, w with
          | VNull, VNull => left eq_refl
          | VBool a, VBool b => cast_if (decide (a = b))
          | VNum a, VNum b => cast_if (decide (a = b))
          | VStr a, VStr b => cast_if (decide (a = b))
          | VDate a, VDate b => cast_if (decide (a = b))
          | VArr a, VArr b => cast_if (@list_eq_dec _ value_eq_dec a b)
          | VObj a, VObj b => cast_if (@gmap_eq_dec _ _ _ _ value_eq_dec a b)
          | _, _ => right _
          end); congruence.
Defined.

#[global] Instance value_eq : EqDecision value := value_eq_dec.

(** A document, a request body, the object given to [$set]. *)
Abbreviation doc := (gmap string value).

(** A collection: its documents in insertion order. *)
Abbreviation collection := (list (gmap string value)).

(** A string-typed argument as JavaScript passes it: [None] is [undefined]. *)
Abbreviation jsstring := (option string).

(** ** Promises *)

Inductive validator := KRequired | KCast.

Inductive error :=
  | ValidationError (errors : list (string * validator))
  | CastError (path : string)
  | DuplicateKey (id : string)
  | ImmutableField (path : string).

Inductive promise (A : Type) :=
  | Resolved (a : A)
  | Rejected (e : error).
Arguments Resolved {A} a.
Arguments Rejected {A} e.

(** What the driver needs from outside the program when it inserts: the
    instant [Date.now] reads and the identifier it generates. *)
Record env := { now : Z; oid : string }.

(** An asynchronous method on one collection. *)
Definition dao (A : Type) : Type :=
  env → collection → promise A * collection.

(** [m.then(f)]: [f] runs on the resolved value, a rejection is passed on. *)
Definition then_ {A B : Type} (m : dao A) (f : A → B) : dao B :=
  λ e c, match m e c with
         | (Resolved a, c') => (Resolved (f a), c')
         | (Rejected err, c') => (Rejected err, c')
         end.

(** ** The driver *)

Module Mongoose.

Inductive schema_type := SString | SNumber | SDate | SBoolean | SObjectId.

(** The [default] of a path: a constant, or the function [Date.now]. *)
Inductive default_spec :=
  | DValue (v : value)
  | DNow.

(** A declared path: [{type, required, default}], or a nested object. *)
Inductive schema_path :=
  | Path (type : schema_type) (required : bool) (default : option default_spec)
  | Nested (fields : list (string * schema_path)).

Abbreviation schema := (list (string * schema_path)).

(** [new mongoose.Schema(definition, {collection: name})]. *)
Record Schema := mkSchema { paths : schema; collectionName : string }.

(** The shorthand [image: String]. *)
Definition Of (t : schema_type) : schema_path := Path t false None.

(** Modelled from the spec: the document-database driver is an external
    collaborator (§6); its cast of a supplied value to the declared type.
    A value of the declared kind is kept, a number is a date's milliseconds,
    [null] is left alone; an identifier is opaque text (§3). Any other
    value is a cast failure. *)
Definition cast (t : schema_type) (v : value) : option value :=
  match t, v with
  | _, VNull => Some VNull
  | SString, VStr _ => Some v
  | SNumber, VNum _ => Some v
  | SDate, VDate _ => Some v
  | SDate, VNum n => Some (VDate n)
  | SBoolean, VBool _ => Some v
  | SObjectId, VStr _ => Some v
  | _, _ => None
  end.

(** Modelled from the spec: the [required] validator of the driver, which
    fails on a missing or [null] value and, for a String path, on the empty
    text. *)
Definition checkRequired (t : schema_type) (v : option value) : bool :=
  match v with
  | None | Some VNull => false
  | Some (VStr s) =>
      match t with
      | SString => negb (String.eqb s "")
      | _ => true
      end
  | Some _ => true
  end.

Definition eval_default (instant : Z) (d : default_spec) : value :=
  match d with
  | DValue v => v
  | DNow => VDate instant
  end.

(** One leaf path of a new document: the supplied value cast, else the
    default; then the [required] validator. *)
Definition apply_leaf (instant : Z) (path : string) (t : schema_type)
    (required : bool) (default : option default_spec) (given : option value)
  : option value * list (string * validator) :=
  match given with
  | Some g =>
      match cast t g with
      | Some c =>
          (Some c,
           if required && negb (checkRequired t (Some c))
           then [(path, KRequired)] else [])
      | None => (None, [(path, KCast)])
      end
  | None =>
      let v := eval_default instant <$> default in
      (v, if required && negb (checkRequired t v)
          then [(path, KRequired)] else [])
  end.

(** The declared fields of an object, read from [given]: undeclared keys
    are dropped (strict mode), absent ones take their default. *)
Definition apply_fields
    (f : string → schema_path → option value →
         option value * list (string * validator))
    (prefix : string) (fields : list (string * schema_path)) (given : doc)
  : doc * list (string * validator) :=
  foldr (λ kp acc,
           let r := f (prefix +:+ kp.1) kp.2 (given !! kp.1) in
           (match r.1 with
            | Some x => <[kp.1 := x]> acc.1
            | None => acc.1
            end, r.2 ++ acc.2))
        (∅, []) fields.

Fixpoint apply_path (instant : Z) (path : string) (p : schema_path)
    (given : option value) {struct p}
  : option value * list (string * validator) :=
  match p with
  | Path t required default => apply_leaf instant path t required default given
  | Nested fields =>
      let build (o : doc) :=
        let r := apply_fields (apply_path instant) (path +:+ ".") fields o in
        ((if decide (r.1 = ∅) then None else Some (VObj r.1)), r.2) in
      match given with
      | None => build ∅
      | Some (VObj o) => build o
      | Some _ => (None, [(path, KCast)])
      end
  end.

(** A new document of schema [sch] from the object [body]. *)
Definition apply_schema (instant : Z) (sch : schema) (body : doc)
  : doc * list (string * validator) :=
  apply_fields (apply_path instant) "" sch body.

(** The paths of a schema that declare a default, nested ones dotted. *)
Fixpoint defaults_of (prefix : string) (p : schema_path) {struct p}
  : list string :=
  match p with
  | Path _ _ (Some _) => [prefix]
  | Path _ _ None => []
  | Nested fields =>
      flat_map (λ kp, defaults_of (prefix +:+ "." +:+ kp.1) kp.2) fields
  end.

Definition schema_defaults (sch : schema) : list string :=
  flat_map (λ kp, defaults_of kp.1 kp.2) sch.

(** A query filter [{k1: v1, ...}] on text fields; a condition whose value
    is [undefined] reaches the database as [null]. *)
Abbreviation filter := (list (string * option string)).

Definition matches_cond (d : doc) (c : string * option string) : bool :=
  match c.2, d !! c.1 with
  | Some s, Some (VStr s') => bool_decide (s' = s)
  | None, None | None, Some VNull => true
  | _, _ => false
  end.

Definition matches (q : filter) (d : doc) : bool := forallb (matches_cond d) q.

Definition has_id (id : string) (c : collection) : bool :=
  existsb (matches [("_id", Some id)]) c.

(** Position and document of the first match, in insertion order. *)
Fixpoint first_match (q : filter) (c : collection) : option (nat * doc) :=
  match c with
  | [] => None
  | d :: c' =>
      if matches q d then Some (0, d)
      else prod_map S id <$> first_match q c'
  end.

Record DeleteResult := { deletedCount : nat }.

Inductive UpdateResult :=
  | Unacknowledged
  | Acknowledged (matchedCount modifiedCount : nat).

(** Modelled from the spec: [Model.find(filter)], every matching document. *)
Definition find (q : filter) : dao (list doc) :=
  λ _ c, (Resolved (List.filter (matches q) c), c).

(** Modelled from the spec: [Model.findOne(filter)], the first match or
    [null]. *)
Definition findOne (q : filter) : dao (option doc) :=
  λ _ c, (Resolved (snd <$> first_match q c), c).

(** Modelled from the spec: [Model.findById(id)], [findOne({_id: id})]. *)
Definition findById (id : jsstring) : dao (option doc) :=
  findOne [("_id", id)].

(** Modelled from the spec: [Model.create(body)]. The body is shaped by the
    schema, validated, given its primary key (the body's own [_id] when it
    has one) and version key, and appended to the collection. *)
Definition create (sch : Schema) (body : doc) : dao doc :=
  λ e c,
    let r := apply_schema (now e) (paths sch) body in
    let key :=
      match body !! "_id" with
      | None => inl (oid e)
      | Some (VStr s) => inl s
      | Some _ => inr [("_id", KCast)]
      end in
    match key with
    | inr errs => (Rejected (ValidationError (r.2 ++ errs)), c)
    | inl id =>
        match r.2 with
        | _ :: _ => (Rejected (ValidationError r.2), c)
        | [] =>
            if has_id id c then (Rejected (DuplicateKey id), c)
            else
              let d := <["_id" := VStr id]> (<["__v" := VNum 0]> r.1) in
              (Resolved d, c ++ [d])
        end
    end.

(** Modelled from the spec: [Model.deleteOne(filter)], which removes the
    first match and reports how many documents it removed. *)
Definition deleteOne (q : filter) : dao DeleteResult :=
  λ _ c,
    match first_match q c with
    | Some (i, _) => (Resolved {| deletedCount := 1 |}, delete i c)
    | None => (Resolved {| deletedCount := 0 |}, c)
    end.

(** Modelled from the spec: [Model.deleteMany(filter)]. *)
Definition deleteMany (q : filter) : dao DeleteResult :=
  λ _ c,
    (Resolved {| deletedCount := length (List.filter (matches q) c) |},
     List.filter (λ d, negb (matches q d)) c).

(** The cast of one key of a [$set] object: an undeclared key is dropped,
    a leaf is cast to its type, a nested object keeps its declared keys.
    A key is the name of a field: the object is a partial document, it has
    no dotted path among its keys. *)
Definition cast_set_fields
    (f : string → schema_path → value → option value)
    (prefix : string) (fields : list (string * schema_path)) (given : doc)
  : option doc :=
  foldr (λ kp acc,
           a ← acc;
           match given !! kp.1 with
           | None => Some a
           | Some v => x ← f (prefix +:+ kp.1) kp.2 v; Some (<[kp.1 := x]> a)
           end)
        (Some ∅) fields.

Fixpoint cast_set_path (path : string) (p : schema_path) (v : value)
    {struct p} : option value :=
  match p with
  | Path t _ _ => cast t v
  | Nested fields =>
      match v with
      | VObj o => VObj <$> cast_set_fields cast_set_path (path +:+ ".") fields o
      | _ => None
      end
  end.

(** The [$set] object after the cast: declared keys and the primary key. *)
Definition cast_set (sch : schema) (set : doc) : option doc :=
  a ← cast_set_fields cast_set_path "" sch set;
  match set !! "_id" with
  | None => Some a
  | Some v => x ← cast SObjectId v; Some (<["_id" := x]> a)
  end.

(** Modelled from the spec: [Model.updateOne(filter, {$set: set})], a
    field-level set on the first match. An empty update is not sent; the
    primary key cannot be changed. *)
Definition updateOne (sch : Schema) (q : filter) (set : doc)
  : dao UpdateResult :=
  λ _ c,
    match cast_set (paths sch) set with
    | None => (Rejected (CastError "$set"), c)
    | Some s =>
        if decide (s = ∅) then (Resolved Unacknowledged, c)
        else
          match first_match q c with
          | None => (Resolved (Acknowledged 0 0), c)
          | Some (i, d) =>
              if decide (is_Some (s !! "_id") ∧ s !! "_id" ≠ d !! "_id")
              then (Rejected (ImmutableField "_id"), c)
              else
                let d' := s ∪ d in
                (Resolved (Acknowledged 1 (if decide (d' = d) then 0 else 1)),
                 <[i := d']> c)
          end
    end.

End Mongoose.

(** ** The two declarations of the tuits schema *)

(** [src/mongoose/TuitSchema.ts]. *)
Module mongoose_TuitSchema.
Import Mongoose.

Definition TuitSchema : Schema :=
  mkSchema
    [ ("tuit", Path SString true None);
      ("postedBy", Path SObjectId false None);
      ("postedOn", Path SDate false (Some DNow)) ]
    "tuits".

End mongoose_TuitSchema.

(** The declaration with media fields and the [stats] block. *)
Module part_001.
Import Mongoose.

Definition TuitSchema : Schema :=
  mkSchema
    [ ("tuit", Path SString true None);
      ("postedBy", Path SObjectId false None);
      ("postedOn", Path SDate false (Some DNow));
      ("image", Of SString);
      ("youtube", Of SString);
      ("avatarLogo", Of SString);
      ("imageOverlay", Of SString);
      ("stats", Nested
         [ ("replies", Path SNumber false (Some (DValue (VNum 0))));
           ("retuits", Path SNumber false (Some (DValue (VNum 0))));
           ("likes", Path SNumber false (Some (DValue (VNum 0))));
           ("dislikes", Path SNumber false (Some (DValue (VNum 0))));
           ("currentUserLike", Path SNumber false (Some (DValue (VNum 0))));
           ("currentUserDislike",
            Path SNumber false (Some (DValue (VNum 0)))) ]) ]
    "tuits".

End part_001.

(** The six counters of a [stats] block, all 0. *)
Definition zero_stats : gmap string value :=
  {[ "replies" := VNum 0; "retuits" := VNum 0; "likes" := VNum 0;
     "dislikes" := VNum 0; "currentUserLike" := VNum 0;
     "currentUserDislike" := VNum 0 ]}.

(** The names of the six counters. *)
Definition counters : list string :=
  [ "replies"; "retuits"; "likes"; "dislikes"; "currentUserLike";
    "currentUserDislike" ].

(** The four media fields. *)
Definition media : list string :=
  [ "image"; "youtube"; "avatarLogo"; "imageOverlay" ].

(** [d.stats.k], when [d] has a [stats] object with that key. *)
Definition counter (d : gmap string value) (k : string) : option value :=
  match d !! "stats" with
  | Some (VObj s) => s !! k
  | _ => None
  end.

(** ** [src/daos/UserDao.ts] *)

Module UserDao.
Import Mongoose.

Section UserDao.

(** [UserModel] is the driver's model of the users collection; the
    schema it is built from ([mongoose/UserModel]) is a parameter. *)
Variable UserSchema : Schema.

Definition findAllUsers : dao (list doc) :=
  find [].

Definition findUserById (userId : string) : dao (option doc) :=
  findById (Some userId).

Definition createUser (user : doc) : dao doc :=
  create UserSchema user.

Definition deleteUser (userId : string) : dao DeleteResult :=
  deleteOne [("_id", Some userId)].

Definition updateUser (userId : string) (user : doc) : dao UpdateResult :=
  updateOne UserSchema [("_id", Some userId)] user.

Definition deleteAllUsers : dao DeleteResult :=
  deleteMany [].

Definition deleteUsersByUsername (username : string) : dao DeleteResult :=
  deleteMany [("username", Some username)].

Definition findUserByCredentials (username password : string)
  : dao (option doc) :=
  findOne [("username", Some username); ("password", Some password)].

Definition findUserByUsername (username : string) : dao (option doc) :=
  findOne [("username", Some username)].

End UserDao.

(** The class itself: its static field [userDao], and how many objects
    [new] has made so far. An object is known by its number. *)
Record statics := { userDao : option nat; allocated : nat }.

(** [getInstance()]: the class afterwards and the instance returned. *)
Definition getInstance (k : statics) : statics * nat :=
  match userDao k with
  | None =>
      ({| userDao := Some (allocated k); allocated := S (allocated k) |},
       allocated k)
  | Some o => (k, o)
  end.

End UserDao.

(** ** The tuits DAO *)

(** The interface the controller is written against. *)
Module TuitDaoI.

Record t := {
  findAllTuits : dao (list doc);
  findTuitsByUser : jsstring → dao (list doc);
  findTuitById : jsstring → dao (option doc);
  createTuit : jsstring → doc → dao doc;
  updateTuit : jsstring → doc → dao Mongoose.UpdateResult;
  deleteTuit : jsstring → dao Mongoose.DeleteResult }.

End TuitDaoI.

Module TuitDao.
Import Mongoose.

Section TuitDao.

(** The schema [TuitModel] is built from: one of the two declarations. *)
Variable TuitSchema : Schema.

(** Modelled from the spec: the source of [daos/TuitDao.ts] is not
    available. §4.1 [findAllTuits]: the full collection of Tuit
    documents. *)
Definition findAllTuits : dao (list doc) :=
  find [].

(** Modelled from the spec: the source of [daos/TuitDao.ts] is not
    available. §4.1 [findTuitsByUser]: all Tuit documents whose [postedBy]
    equals the given User primary key. *)
Definition findTuitsByUser (uid : jsstring) : dao (list doc) :=
  find [("postedBy", uid)].

(** Modelled from the spec: the source of [daos/TuitDao.ts] is not
    available. §4.1 [findTuitById]: the matching document, or null if
    absent. *)
Definition findTuitById (tid : jsstring) : dao (option doc) :=
  findById tid.

(** Modelled from the spec: the source of [daos/TuitDao.ts] is not
    available. §4.1 [createTuit]: inserts a new document with [postedBy]
    forced to the path parameter, returns the created document including
    its assigned primary key. *)
Definition createTuit (uid : jsstring) (tuit : doc) : dao doc :=
  create TuitSchema
    (match uid with
     | Some u => <["postedBy" := VStr u]> tuit
     | None => delete "postedBy" tuit
     end).

(** Modelled from the spec: the source of [daos/TuitDao.ts] is not
    available. §4.1 [updateTuit]: a field-level set of the supplied body
    onto the existing document; returns the raw update outcome. *)
Definition updateTuit (tid : jsstring) (tuit : doc) : dao UpdateResult :=
  updateOne TuitSchema [("_id", tid)] tuit.

(** Modelled from the spec: the source of [daos/TuitDao.ts] is not
    available. §4.1 [deleteTuit]: returns the raw deletion outcome (count of
    documents removed). *)
Definition deleteTuit (tid : jsstring) : dao DeleteResult :=
  deleteOne [("_id", tid)].

Definition getInstance : TuitDaoI.t :=
  {| TuitDaoI.findAllTuits := findAllTuits;
     TuitDaoI.findTuitsByUser := findTuitsByUser;
     TuitDaoI.findTuitById := findTuitById;
     TuitDaoI.createTuit := createTuit;
     TuitDaoI.updateTuit := updateTuit;
     TuitDaoI.deleteTuit := deleteTuit |}.

End TuitDao.

End TuitDao.

(** ** The web framework *)

Module Express.

Inductive method := GET | POST | PUT | DELETE.

#[global] Instance method_eq : EqDecision method.
Proof. solve_decision. Defined.

(** Modelled from the spec: the web-server framework is an external
    collaborator (§6) that provides route registration and the request and
    response objects. An incoming HTTP request: method, path and parsed
    JSON body. *)
Record IncomingMessage := { verb : method; url : string; payload : doc }.

(** The request as a handler sees it: [req.params] holds exactly the
    parameters named in the path of the route that matched. *)
Record Request := { params : gmap string string; body : doc }.

Record Response := { statusCode : nat; sent : option value }.

(** The response object a handler is given: status 200, nothing sent. *)
Definition fresh : Response := {| statusCode := 200; sent := None |}.

(** What [res.json] serializes. *)
Class ToJSON (A : Type) := to_json : A → value.

#[global] Instance doc_to_json : ToJSON doc := VObj.

#[global] Instance docs_to_json : ToJSON (list doc) := λ l, VArr (VObj <$> l).

#[global] Instance nullable_to_json : ToJSON (option doc) :=
  λ o, match o with
       | Some d => VObj d
       | None => VNull
       end.

#[global] Instance delete_to_json : ToJSON Mongoose.DeleteResult :=
  λ r, VObj {[ "acknowledged" := VBool true;
               "deletedCount" := VNum (Z.of_nat (Mongoose.deletedCount r)) ]}.

#[global] Instance update_to_json : ToJSON Mongoose.UpdateResult :=
  λ r, match r with
       | Mongoose.Unacknowledged => VObj {[ "acknowledged" := VBool false ]}
       | Mongoose.Acknowledged m n =>
           VObj {[ "acknowledged" := VBool true;
                   "matchedCount" := VNum (Z.of_nat m);
                   "modifiedCount" := VNum (Z.of_nat n);
                   "upsertedCount" := VNum 0;
                   "upsertedId" := VNull ]}
       end.

(** [res.json(x)]: the body is sent, the status is left as it is. *)
Definition json `{ToJSON A} (x : A) (res : Response) : Response :=
  {| statusCode := statusCode res; sent := Some (to_json x) |}.

(** [res.send(x)] of an object is [res.json(x)]. *)
Definition send `{ToJSON A} (x : A) (res : Response) : Response :=
  json x res.

Definition handler : Type := Request → Response → dao Response.

Record Route :=
  { route_verb : method; route_path : string; callback : handler }.

(** The application: its routes in the order they were registered. *)
Abbreviation Express := (list Route).

Definition register (v : method) (path : string) (h : handler) (app : Express)
  : Express :=
  app ++ [{| route_verb := v; route_path := path; callback := h |}].

Definition lower (c : ascii) : ascii :=
  let n := nat_of_ascii c in
  if Nat.leb 65 n && Nat.leb n 90 then ascii_of_nat (n + 32) else c.

Fixpoint lowercase (s : string) : string :=
  match s with
  | EmptyString => EmptyString
  | String c s' => String (lower c) (lowercase s')
  end.

(** The pieces of [s] between occurrences of [sep]. *)
Fixpoint split (sep : ascii) (s : string) : list string :=
  match s with
  | EmptyString => [EmptyString]
  | String c s' =>
      if Ascii.eqb c sep then EmptyString :: split sep s'
      else match split sep s' with
           | [] => [String c EmptyString]
           | x :: xs => String c x :: xs
           end
  end.

Inductive segment :=
  | Lit (s : string)
  | Param (name : string).

(** A piece of a route path: [:name] is a parameter. *)
Definition segment_of (s : string) : segment :=
  match s with
  | String ":" name => Param name
  | _ => Lit s
  end.

(** Modelled from the spec: the framework's match of a route path against
    a request path. Literal pieces match whatever the case, a parameter
    takes one non-empty piece, one trailing slash is allowed. *)
Fixpoint match_segments (pat : list segment) (segs : list string)
  : option (gmap string string) :=
  match pat, segs with
  | [], [] => Some ∅
  | [], [EmptyString] => Some ∅
  | Lit l :: pat', s :: segs' =>
      if String.eqb (lowercase s) (lowercase l)
      then match_segments pat' segs' else None
  | Param n :: pat', s :: segs' =>
      if String.eqb s "" then None
      else insert n s <$> match_segments pat' segs'
  | _, _ => None
  end.

(** The parameters of [path] when the request path [u] matches it. *)
Definition match_path (path u : string) : option (gmap string string) :=
  match split "/" path, split "/" u with
  | EmptyString :: pat, EmptyString :: segs =>
      match_segments (segment_of <$> pat) segs
  | _, _ => None
  end.

(** Modelled from the spec: the framework's dispatch. The first registered
    route of the request's method whose path matches handles the request;
    [None] when no route does. *)
Fixpoint handle (app : Express) (m : IncomingMessage)
  : option (dao Response) :=
  match app with
  | [] => None
  | r :: app' =>
      if decide (route_verb r = verb m) then
        match match_path (route_path r) (url m) with
        | Some ps =>
            Some (callback r {| params := ps; body := payload m |} fresh)
        | None => handle app' m
        end
      else handle app' m
  end.

(** The settled promise of the handler and the collection afterwards. *)
Definition serve (app : Express) (m : IncomingMessage) (e : env)
    (c : collection) : option (promise Response * collection) :=
  (λ h : dao Response, h e c) <$> handle app m.

End Express.

(** ** The tuits controller *)

Module TuitController.
Import Express.

Inductive TuitController := new.

Section TuitController.

(** The static field [tuitDao]. *)
Variable tuitDao : TuitDaoI.t.

Definition findAllTuits : handler :=
  λ req res,
    then_ (TuitDaoI.findAllTuits tuitDao)
          (λ tuits, json tuits res).

Definition findTuitById : handler :=
  λ req res,
    then_ (TuitDaoI.findTuitById tuitDao (params req !! "tid"))
          (λ tuit, json tuit res).

Definition findTuitsByUser : handler :=
  λ req res,
    then_ (TuitDaoI.findTuitsByUser tuitDao (params req !! "uid"))
          (λ tuits, json tuits res).

Definition createTuit : handler :=
  λ req res,
    then_ (TuitDaoI.createTuit tuitDao (params req !! "uid") (body req))
          (λ tuit, json tuit res).

Definition deleteTuit : handler :=
  λ req res,
    then_ (TuitDaoI.deleteTuit tuitDao (params req !! "tuitId"))
          (λ status, send status res).

Definition updateTuit : handler :=
  λ req res,
    then_ (TuitDaoI.updateTuit tuitDao (params req !! "tuitId") (body req))
          (λ status, send status res).

(** [getInstance(app)]: the static field [tuitController] afterwards, which
    is also what the call returns, and the application, with the six
    routes registered on it when the field was null. *)
Definition getInstance (tuitController : option TuitController) (app : Express)
  : option TuitController * Express :=
  match tuitController with
  | None =>
      (Some new,
       register PUT "/tuits/:tid" updateTuit
         (register DELETE "/tuits/:tid" deleteTuit
            (register POST "/users/:uid/tuits" createTuit
               (register GET "/tuits/:tid" findTuitById
                  (register GET "/users/:uid/tuits" findTuitsByUser
                     (register GET "/tuits" findAllTuits app))))))
  | Some _ => (tuitController, app)
  end.

(** The application after the controller is first obtained. *)
Definition server : Express := (getInstance None []).2.

End TuitController.

End TuitController.

(** ** Primary keys and histories of a collection *)

(** The primary keys of the documents, in order. *)
Definition keys (c : collection) : list (option value) :=
  (λ d : gmap string value, d !! "_id") <$> c.

(** Every document has a text primary key, and no two share one. *)
Definition keyed (c : collection) : Prop :=
  Forall (λ d : gmap string value, ∃ id, d !! "_id" = Some (VStr id)) c ∧
  NoDup (keys c).

(** A call of one of the methods of [UserDao] that write. *)
Inductive call :=
  | CreateUser (user : gmap string value)
  | DeleteUser (userId : string)
  | UpdateUser (userId : string) (user : gmap string value)
  | DeleteAllUsers
  | DeleteUsersByUsername (username : string).

(** The collection after the call, whatever the promise settles to. *)
Definition perform (UserSchema : Mongoose.Schema) (c : collection)
    (k : env * call) : collection :=
  match k.2 with
  | CreateUser user => (UserDao.createUser UserSchema user k.1 c).2
  | DeleteUser userId => (UserDao.deleteUser userId k.1 c).2
  | UpdateUser userId user =>
      (UserDao.updateUser UserSchema userId user k.1 c).2
  | DeleteAllUsers => (UserDao.deleteAllUsers k.1 c).2
  | DeleteUsersByUsername username =>
      (UserDao.deleteUsersByUsername username k.1 c).2
  end.

(** The users collection after a sequence of calls on the empty one. *)
Definition history (UserSchema : Mongoose.Schema) (ks : list (env * call))
  : collection :=
  foldl (perform UserSchema) [] ks.

(** ** Sample data *)

Module Samples.
Import Express.

Definition e0 : env := {| now := 1700000000000; oid := "t1" |}.

Definition alice : gmap string value :=
  {[ "_id" := VStr "u1"; "username" := VStr "alice";
     "password" := VStr "lv426"; "email" := VStr "alice@weyland.com" ]}.

Definition bob : gmap string value :=
  {[ "_id" := VStr "u2"; "username" := VStr "bob";
     "password" := VStr "hunter2"; "email" := VStr "bob@weyland.com" ]}.

Definition UserSchema : Mongoose.Schema :=
  Mongoose.mkSchema
    [ ("username", Mongoose.Path Mongoose.SString true None);
      ("password", Mongoose.Path Mongoose.SString true None);
      ("email", Mongoose.Of Mongoose.SString) ]
    "users".

Definition hello : gmap string value := {[ "tuit" := VStr "hello" ]}.

(** A stored tuit of user [u1] under the declaration with [stats]. *)
Definition stored : gmap string value :=
  {[ "_id" := VStr "t0"; "__v" := VNum 0; "tuit" := VStr "first";
     "postedBy" := VStr "u1"; "postedOn" := VDate 1600000000000;
     "stats" := VObj zero_stats ]}.

Definition created_short : gmap string value :=
  {[ "_id" := VStr "t1"; "__v" := VNum 0; "tuit" := VStr "hello";
     "postedOn" := VDate 1700000000000 ]}.

Definition created_full : gmap string value :=
  {[ "_id" := VStr "t1"; "__v" := VNum 0; "tuit" := VStr "hello";
     "postedOn" := VDate 1700000000000; "stats" := VObj zero_stats ]}.

Definition picture : gmap string value :=
  {[ "tuit" := VStr "look"; "image" := VStr "cat.png";
     "stats" := VObj {[ "likes" := VNum 3 ]} ]}.

Definition picture_short : gmap string value :=
  {[ "_id" := VStr "t1"; "__v" := VNum 0; "tuit" := VStr "look";
     "postedOn" := VDate 1700000000000 ]}.

Definition picture_full : gmap string value :=
  {[ "_id" := VStr "t1"; "__v" := VNum 0; "tuit" := VStr "look";
     "postedOn" := VDate 1700000000000; "image" := VStr "cat.png";
     "stats" := VObj (<["likes" := VNum 3]> zero_stats) ]}.

Definition claimed : gmap string value :=
  {[ "tuit" := VStr "hello"; "postedBy" := VStr "u2" ]}.

Definition created_by_u1 : gmap string value :=
  {[ "_id" := VStr "t1"; "__v" := VNum 0; "tuit" := VStr "hello";
     "postedBy" := VStr "u1"; "postedOn" := VDate 1700000000000;
     "stats" := VObj zero_stats ]}.

Definition new_password : gmap string value :=
  {[ "password" := VStr "nostromo" ]}.

Definition alice' : gmap string value :=
  {[ "_id" := VStr "u1"; "username" := VStr "alice";
     "password" := VStr "nostromo"; "email" := VStr "alice@weyland.com" ]}.

Definition untitled : gmap string value :=
  {[ "tuit" := VStr ""; "image" := VStr "cat.png" ]}.

Definition e1 : env := {| now := 1700000000001; oid := "u3" |}.

Definition carol : gmap string value :=
  {[ "username" := VStr "carol"; "password" := VStr "xeno";
     "role" := VStr "admin" ]}.

Definition carol_stored : gmap string value :=
  {[ "_id" := VStr "u3"; "__v" := VNum 0; "username" := VStr "carol";
     "password" := VStr "xeno" ]}.

(** A second account under the name of [alice]. *)
Definition alice2 : gmap string value :=
  {[ "_id" := VStr "u4"; "username" := VStr "alice";
     "password" := VStr "sulaco" ]}.

Definition liked : gmap string value :=
  {[ "tuit" := VStr "look"; "postedOn" := VNum 5;
     "stats" := VObj {[ "likes" := VNum 3 ]} ]}.

Definition liked_stored : gmap string value :=
  {[ "_id" := VStr "t1"; "__v" := VNum 0; "tuit" := VStr "look";
     "postedOn" := VDate 5;
     "stats" := VObj (<["likes" := VNum 3]> zero_stats) ]}.

Definition post (u : string) (b : gmap string value) : IncomingMessage :=
  {| verb := POST; url := u; payload := b |}.

Definition get (u : string) : IncomingMessage :=
  {| verb := GET; url := u; payload := ∅ |}.

Definition del (u : string) : IncomingMessage :=
  {| verb := DELETE; url := u; payload := ∅ |}.

Definition put (u : string) (b : gmap string value) : IncomingMessage :=
  {| verb := PUT; url := u; payload := b |}.

End Samples.

(** * Properties *)

(** ** The driver: queries *)

Section driver_queries.
Import Mongoose.
Implicit Types (q : filter) (c : collection) (d : doc).

Lemma first_match_Some q c i d :
  first_match q c = Some (i, d) →
  c !! i = Some d ∧ matches q d = true ∧
  ∀ j d', j < i → c !! j = Some d' → matches q d' = false.
Proof.
  revert i. induction c as [|d0 c IH]; intros i; simpl; [done|].
  destruct (matches q d0) eqn:Hm.
  - intros [= <- <-]. split_and!; [done..|]. intros j d' Hj. lia.
  - destruct (first_match q c) as [[i' d']|]; simpl; [|done].
    intros [= <- <-]. destruct (IH i' eq_refl) as (Hl & Hd & Hlt).
    split_and!; [done..|]. intros [|j] d'' Hj; simpl.
    + by intros [= <-].
    + apply Hlt. lia.
Qed.

Lemma first_match_None q c :
  first_match q c = None ↔ Forall (λ d, matches q d = false) c.
Proof.
  induction c as [|d0 c IH]; simpl.
  - split; [constructor|done].
  - destruct (matches q d0) eqn:Hm.
    + split; [done|]. intros H. inversion H; congruence.
    + destruct (first_match q c) as [[i' d']|]; simpl.
      * split; [done|]. intros H. inversion H as [|?? _ H']. by apply IH in H'.
      * split; [|done]. intros _. constructor; [done|]. by apply IH.
Qed.

Lemma matches_text k s d :
  matches_cond d (k, Some s) = true ↔ d !! k = Some (VStr s).
Proof.
  unfold matches_cond; simpl.
  destruct (d !! k) as [[]|]; split; try done.
  - intros H. apply bool_decide_eq_true in H. by subst.
  - intros [= ->]. by apply bool_decide_eq_true.
Qed.

Lemma matches_id id d :
  matches [("_id", Some id)] d = true ↔ d !! "_id" = Some (VStr id).
Proof. unfold matches; simpl. rewrite andb_true_r. apply matches_text. Qed.

Lemma matches_credentials username password d :
  matches [("username", Some username); ("password", Some password)] d = true
  ↔ d !! "username" = Some (VStr username) ∧
    d !! "password" = Some (VStr password).
Proof.
  unfold matches; simpl.
  rewrite andb_true_r, andb_true_iff. by rewrite !matches_text.
Qed.

Lemma no_id_no_match id c :
  Forall (λ d, d !! "_id" ≠ Some (VStr id)) c →
  first_match [("_id", Some id)] c = None.
Proof.
  intros H. apply first_match_None. eapply Forall_impl; [exact H|].
  intros d Hd. cbv beta in Hd. destruct (matches _ d) eqn:Hm; [|done].
  by apply matches_id in Hm.
Qed.

End driver_queries.

(** ** The driver: shaping a new document *)

Section shaping.
Import Mongoose.
Context (f : string → schema_path → option value →
             option value * list (string * validator)).
Implicit Types (o : gmap string value) (fields : list (string * schema_path)).

Lemma apply_fields_errors prefix fields o :
  (apply_fields f prefix fields o).2
  = flat_map (λ kp, (f (prefix +:+ kp.1) kp.2 (o !! kp.1)).2) fields.
Proof. induction fields as [|kp fs IH]; simpl; [done|]. by rewrite <- IH. Qed.

Lemma apply_fields_valid prefix fields o k p :
  (apply_fields f prefix fields o).2 = [] → (k, p) ∈ fields →
  (f (prefix +:+ k) p (o !! k)).2 = [].
Proof.
  rewrite apply_fields_errors.
  induction fields as [|kp fs IH]; simpl; [by rewrite elem_of_nil|].
  intros [H1 H2]%app_eq_nil [<-|Hin]%elem_of_cons; [done|by apply IH].
Qed.

Lemma apply_fields_undeclared prefix fields o k :
  k ∉ fields.*1 → (apply_fields f prefix fields o).1 !! k = None.
Proof.
  induction fields as [|kp fs IH]; simpl; [done|].
  rewrite not_elem_of_cons. intros [Hne Hk].
  destruct (f _ _ _).1; [rewrite lookup_insert_ne by done|]; by apply IH.
Qed.

Lemma apply_fields_declared prefix fields o k p :
  NoDup fields.*1 → (k, p) ∈ fields →
  (apply_fields f prefix fields o).1 !! k = (f (prefix +:+ k) p (o !! k)).1.
Proof.
  induction fields as [|kp fs IH]; simpl; [by rewrite elem_of_nil|].
  rewrite NoDup_cons, elem_of_cons. intros [Hfresh Hnd] [<-|Hin]; simpl.
  - destruct (f _ _ _).1 eqn:Hv; [by rewrite lookup_insert_eq|].
    by apply apply_fields_undeclared.
  - assert (kp.1 ≠ k) as Hne.
    { intros <-. apply Hfresh. apply list_elem_of_fmap. by exists (kp.1, p). }
    destruct (f (prefix +:+ kp.1) _ _).1;
      [rewrite lookup_insert_ne by done|]; by apply IH.
Qed.

End shaping.

Section creation.
Import Mongoose.
Implicit Types (sch : Schema) (body d : gmap string value) (c : collection).

Lemma apply_path_object instant path fields (o : gmap string value) :
  apply_path instant path (Nested fields) (Some (VObj o))
  = let r := apply_fields (apply_path instant) (path +:+ ".") fields o in
    ((if decide (r.1 = ∅) then None else Some (VObj r.1)), r.2).
Proof. reflexivity. Qed.

Lemma create_Resolved sch body e c d c' :
  create sch body e c = (Resolved d, c') →
  ∃ id, (body !! "_id" = None ∧ id = oid e ∨ body !! "_id" = Some (VStr id)) ∧
    (apply_schema (now e) (paths sch) body).2 = [] ∧ has_id id c = false ∧
    d = <["_id" := VStr id]>
          (<["__v" := VNum 0]> (apply_schema (now e) (paths sch) body).1) ∧
    c' = c ++ [d].
Proof.
  unfold create.
  destruct (body !! "_id") as [[]|] eqn:Hid; try (intros [=]; fail);
  (destruct (apply_schema (now e) (paths sch) body).2 eqn:Herr;
     [|intros [=]]);
  match goal with |- context [has_id ?i c] => destruct (has_id i c) eqn:Hh end;
  intros [= <- <-]; eexists; split_and!; eauto.
Qed.

Lemma create_invalid sch body e c err errs :
  (apply_schema (now e) (paths sch) body).2 = err :: errs →
  ∃ errors, create sch body e c = (Rejected (ValidationError errors), c) ∧
            err ∈ errors.
Proof.
  intros Herr. unfold create. rewrite Herr.
  destruct (body !! "_id") as [[]|]; eexists; (split; [reflexivity|]);
    rewrite ?elem_of_app, elem_of_cons; auto.
Qed.

Lemma create_field sch body e c d c' k p :
  create sch body e c = (Resolved d, c') →
  NoDup (paths sch).*1 → (k, p) ∈ paths sch → k ≠ "_id" → k ≠ "__v" →
  d !! k = (apply_path (now e) k p (body !! k)).1 ∧
  (apply_path (now e) k p (body !! k)).2 = [].
Proof.
  intros (id & _ & Hok & _ & -> & _)%create_Resolved Hnd Hin H1 H2.
  rewrite !lookup_insert_ne by done. unfold apply_schema in *. split.
  - by rewrite (apply_fields_declared _ _ _ _ _ p).
  - by apply (apply_fields_valid _ _ _ _ _ _ Hok Hin).
Qed.

Lemma create_undeclared sch body e c d c' k :
  create sch body e c = (Resolved d, c') →
  k ∉ (paths sch).*1 → k ≠ "_id" → k ≠ "__v" → d !! k = None.
Proof.
  intros (id & _ & _ & _ & -> & _)%create_Resolved Hin H1 H2.
  rewrite !lookup_insert_ne by done. by apply apply_fields_undeclared.
Qed.

Lemma schema_errors_head instant k p (sch : schema) body :
  (apply_schema instant ((k, p) :: sch) body).2
  = (apply_path instant k p (body !! k)).2 ++ (apply_schema instant sch body).2.
Proof. reflexivity. Qed.

End creation.

(** ** [UserDao]: lookups and deletion *)

Section user_dao.
Import Mongoose Samples.

(** C9. [findUserByCredentials] always resolves: to a stored user whose
    [username] and [password] fields are the given texts (plain equality
    on both), or to null when no stored user matches both; the collection
    is left as it is. *)
Theorem C9_findUserByCredentials (username password : string) (e : env)
    (c : collection) :
  ∃ r, UserDao.findUserByCredentials username password e c = (Resolved r, c) ∧
    match r with
    | Some d =>
        d ∈ c ∧ d !! "username" = Some (VStr username) ∧
        d !! "password" = Some (VStr password)
    | None =>
        Forall (λ d, ¬ (d !! "username" = Some (VStr username) ∧
                        d !! "password" = Some (VStr password))) c
    end.
Proof.
  unfold UserDao.findUserByCredentials, findOne.
  destruct (first_match _ c) as [[i d]|] eqn:Hfm; eexists; (split; [done|]).
  - apply first_match_Some in Hfm as (Hi & Hm & _).
    apply matches_credentials in Hm.
    split; [|done]. apply list_elem_of_lookup. by exists i.
  - apply first_match_None in Hfm. eapply Forall_impl; [exact Hfm|].
    intros d Hd Hboth. apply matches_credentials in Hboth.
    cbv beta in Hd. congruence.
Qed.

(** C10. For a [userId] that no stored user has as its primary key,
    [findUserById] resolves (it does not reject), and it resolves to
    null. *)
Theorem C10_findUserById_null (userId : string) (e : env) (c : collection) :
  Forall (λ d, d !! "_id" ≠ Some (VStr userId)) c →
  UserDao.findUserById userId e c = (Resolved None, c).
Proof.
  intros H. unfold UserDao.findUserById, findById, findOne.
  by rewrite (no_id_no_match _ _ H).
Qed.

Lemma C10_witness :
  UserDao.findUserById "u9" e0 [alice; bob] = (Resolved None, [alice; bob]).
Proof.
  apply C10_findUserById_null.
  apply (bool_decide_unpack _). vm_compute. exact I.
Defined.

(** C7. A delete by a primary key that no stored document has resolves
    (it does not reject) with an outcome of zero documents removed, and
    the collection is unchanged. *)
Theorem C7_delete_absent (userId : string) (e : env) (c : collection) :
  Forall (λ d, d !! "_id" ≠ Some (VStr userId)) c →
  UserDao.deleteUser userId e c = (Resolved {| deletedCount := 0 |}, c).
Proof.
  intros H. unfold UserDao.deleteUser, deleteOne.
  by rewrite (no_id_no_match _ _ H).
Qed.

Lemma C7_witness :
  UserDao.deleteUser "u9" e0 [alice; bob]
  = (Resolved {| deletedCount := 0 |}, [alice; bob]).
Proof.
  apply C7_delete_absent.
  apply (bool_decide_unpack _). vm_compute. exact I.
Defined.

(** The same for the tuits DAO, when it is given a key. *)
Lemma deleteTuit_absent (tid : string) (e : env) (c : collection) :
  Forall (λ d, d !! "_id" ≠ Some (VStr tid)) c →
  TuitDao.deleteTuit (Some tid) e c = (Resolved {| deletedCount := 0 |}, c).
Proof.
  intros H. unfold TuitDao.deleteTuit, deleteOne.
  by rewrite (no_id_no_match _ _ H).
Qed.

(** A delete by a key that some document has removes one document, the
    first with that key. *)
Lemma deleteUser_present (userId : string) (e : env) (c : collection) i d :
  c !! i = Some d → d !! "_id" = Some (VStr userId) →
  ∃ j, j ≤ i ∧
    UserDao.deleteUser userId e c
    = (Resolved {| deletedCount := 1 |}, delete j c).
Proof.
  intros Hi Hid. unfold UserDao.deleteUser, deleteOne.
  destruct (first_match _ c) as [[j d']|] eqn:Hfm.
  - apply first_match_Some in Hfm as (_ & _ & Hlt). exists j. split; [|done].
    destruct (decide (j ≤ i)); [done|].
    assert (matches [("_id", Some userId)] d = false) as Hm
      by (apply (Hlt i d); [lia|done]).
    apply matches_id in Hid. congruence.
  - apply first_match_None in Hfm.
    pose proof (proj1 (Forall_lookup _ _) Hfm i d Hi) as Hm; cbv beta in Hm.
    apply matches_id in Hid. congruence.
Qed.

End user_dao.

(** ** The two schemas: required text, defaults, declared paths *)

Section tuit_schemas.
Import Mongoose Samples.
Implicit Types (sch : Schema) (body d : gmap string value) (c : collection).

Lemma short_NoDup : NoDup (paths mongoose_TuitSchema.TuitSchema).*1.
Proof. apply (bool_decide_unpack _). by vm_compute. Qed.

Lemma full_NoDup : NoDup (paths part_001.TuitSchema).*1.
Proof. apply (bool_decide_unpack _). by vm_compute. Qed.

Ltac declared := apply list_elem_of_In; simpl; tauto.

(** C5. Under either declaration, creating a tuit whose [tuit] text is
    absent or empty is rejected by the [required] validator of that path,
    and nothing is stored. *)
Theorem C5_required_tuit sch body e c :
  sch = mongoose_TuitSchema.TuitSchema ∨ sch = part_001.TuitSchema →
  body !! "tuit" = None ∨ body !! "tuit" = Some (VStr "") →
  ∃ errors,
    create sch body e c = (Rejected (ValidationError errors), c) ∧
    ("tuit", KRequired) ∈ errors.
Proof.
  intros Hsch Htuit.
  assert (∃ errs, (apply_schema (now e) (paths sch) body).2
                  = ("tuit", KRequired) :: errs) as [errs Herr].
  { destruct Hsch as [-> | ->];
      [unfold mongoose_TuitSchema.TuitSchema | unfold part_001.TuitSchema];
      cbn [paths]; rewrite schema_errors_head;
      destruct Htuit as [-> | ->]; simpl; eauto. }
  by apply (create_invalid _ _ _ _ _ _ Herr).
Qed.

Lemma C5_witness :
  ∃ errors,
    create part_001.TuitSchema untitled e0 [stored]
    = (Rejected (ValidationError errors), [stored]) ∧
    ("tuit", KRequired) ∈ errors.
Proof.
  apply C5_required_tuit; [right; reflexivity | right; vm_compute; reflexivity].
Defined.

Lemma default_postedOn sch body e c d c' :
  sch = mongoose_TuitSchema.TuitSchema ∨ sch = part_001.TuitSchema →
  create sch body e c = (Resolved d, c') → body !! "postedOn" = None →
  d !! "postedOn" = Some (VDate (now e)).
Proof.
  intros Hsch Hc Hb.
  assert (d !! "postedOn" =
          (apply_path (now e) "postedOn" (Path SDate false (Some DNow))
             (body !! "postedOn")).1) as ->.
  { destruct Hsch as [-> | ->].
    - eapply create_field; [done|apply short_NoDup|declared|done..].
    - eapply create_field; [done|apply full_NoDup|declared|done..]. }
  by rewrite Hb.
Qed.

Lemma short_no_extra body e c d c' k :
  create mongoose_TuitSchema.TuitSchema body e c = (Resolved d, c') →
  k ∈ "stats" :: media → d !! k = None.
Proof.
  intros Hc Hk. unfold media in Hk.
  rewrite !elem_of_cons, elem_of_nil in Hk.
  eapply create_undeclared; [done|..];
    [intros Hin%list_elem_of_In; simpl in Hin|intros ->..];
    destruct_or!; simplify_eq.
Qed.

Lemma full_stats_declared :
  ∃ fs, ("stats", Nested fs) ∈ paths part_001.TuitSchema ∧ NoDup fs.*1 ∧
    (∀ k, k ∈ counters →
          (k, Path SNumber false (Some (DValue (VNum 0)))) ∈ fs) ∧
    ∀ instant,
      (apply_path instant "stats" (Nested fs) None).1 = Some (VObj zero_stats).
Proof.
  eexists. split_and!.
  - repeat first [apply list_elem_of_here | apply list_elem_of_further].
  - apply (bool_decide_unpack _). by vm_compute.
  - intros k Hk. unfold counters in Hk.
    rewrite !elem_of_cons, elem_of_nil in Hk. apply list_elem_of_In; simpl.
    destruct_or!; subst; tauto.
  - intros instant. by vm_compute.
Qed.

Lemma zero_stats_lookup k : k ∈ counters → zero_stats !! k = Some (VNum 0).
Proof.
  unfold counters. rewrite !elem_of_cons, elem_of_nil.
  intros H; destruct_or!; subst; by vm_compute.
Qed.

Lemma full_counter body e c d c' k :
  create part_001.TuitSchema body e c = (Resolved d, c') →
  k ∈ counters → counter body k = None → counter d k = Some (VNum 0).
Proof.
  intros Hc Hk Hb.
  destruct full_stats_declared as (fs & Hin & Hnd & Hfs & Hzero).
  destruct (create_field _ _ _ _ _ _ _ _ Hc full_NoDup Hin) as [Hd Hok];
    [done..|].
  unfold counter in *. rewrite Hd. clear Hd.
  destruct (body !! "stats") as [v|] eqn:Hs.
  - destruct v as [| | | | | |o]; try done.
    rewrite apply_path_object in *. cbv zeta in *. simpl in Hok.
    pose proof (apply_fields_declared (apply_path (now e)) ("stats" +:+ ".")
                  fs o k _ Hnd (Hfs k Hk)) as Hlk.
    rewrite Hb in Hlk. simpl in Hlk.
    destruct (decide _) as [Hemp|_]; simpl.
    + rewrite Hemp, lookup_empty in Hlk. done.
    + done.
  - rewrite Hzero. by apply zero_stats_lookup.
Qed.

Lemma full_media body e c d c' k s :
  create part_001.TuitSchema body e c = (Resolved d, c') →
  k ∈ media → body !! k = Some (VStr s) → d !! k = Some (VStr s).
Proof.
  intros Hc Hk Hb. unfold media in Hk. rewrite !elem_of_cons, elem_of_nil in Hk.
  assert (("_id" : string) ≠ k ∧ ("__v" : string) ≠ k) as [H1 H2]
    by (destruct_or!; by subst).
  destruct (create_field _ _ _ _ _ _ k (Of SString) Hc full_NoDup) as [-> _];
    [|done..|by rewrite Hb].
  apply list_elem_of_In; simpl. destruct_or!; subst; tauto.
Qed.

(** C3, as stated, fails under [src/mongoose/TuitSchema.ts]: a tuit created
    without a [stats] field is stored without any counter. *)
Lemma C3_counterexample :
  hello !! "stats" = None ∧
  create mongoose_TuitSchema.TuitSchema hello e0 []
  = (Resolved created_short, [created_short]) ∧
  created_short !! "stats" = None ∧
  ∀ k, k ∈ counters → counter created_short k ≠ Some (VNum 0).
Proof.
  split_and!; [by vm_compute..|].
  intros k _. by vm_compute.
Qed.

(** C3, amended. Under the declaration that has the [stats] block, a tuit
    created without a [stats] field is stored with all six counters 0;
    under [src/mongoose/TuitSchema.ts] it is stored without [stats]; under
    either one an omitted [postedOn] is the instant of creation. *)
Theorem C3_defaults sch body e c d c' :
  sch = mongoose_TuitSchema.TuitSchema ∨ sch = part_001.TuitSchema →
  create sch body e c = (Resolved d, c') →
  c' = c ++ [d] ∧
  (body !! "postedOn" = None → d !! "postedOn" = Some (VDate (now e))) ∧
  (sch = part_001.TuitSchema → body !! "stats" = None →
   d !! "stats" = Some (VObj zero_stats) ∧
   ∀ k, k ∈ counters → counter d k = Some (VNum 0)) ∧
  (sch = mongoose_TuitSchema.TuitSchema → d !! "stats" = None).
Proof.
  intros Hsch Hc. split_and!.
  - by apply create_Resolved in Hc as (id & _ & _ & _ & _ & ->).
  - by apply (default_postedOn sch body e c d c').
  - intros -> Hb.
    destruct full_stats_declared as (fs & Hin & _ & _ & Hzero).
    destruct (create_field _ _ _ _ _ _ _ _ Hc full_NoDup Hin) as [Hd _];
      [done..|].
    rewrite Hb, Hzero in Hd. split; [done|].
    intros k Hk. unfold counter. rewrite Hd. by apply zero_stats_lookup.
  - intros ->. apply (short_no_extra body e c d c'); [done|].
    apply list_elem_of_here.
Qed.

Lemma C3_witness :
  created_full !! "postedOn" = Some (VDate 1700000000000) ∧
  created_full !! "stats" = Some (VObj zero_stats).
Proof.
  destruct (C3_defaults part_001.TuitSchema hello e0 [] created_full
              [created_full]) as (_ & Hon & Hstats & _).
  - right; reflexivity.
  - vm_compute; reflexivity.
  - split; [apply Hon | apply Hstats]; reflexivity.
Defined.

(** C4. Both declarations are for the collection [tuits] and they shape
    documents differently. [src/mongoose/TuitSchema.ts] declares [tuit],
    [postedBy] and [postedOn] only and has one default, [postedOn]: a
    document inserted under it has no media field and no [stats]. The other
    declaration adds the four media fields, which are stored when given, and
    six counters, each 0 when not given. *)
Theorem C4_two_declarations :
  collectionName mongoose_TuitSchema.TuitSchema = "tuits" ∧
  collectionName part_001.TuitSchema = "tuits" ∧
  (paths mongoose_TuitSchema.TuitSchema).*1
  = ["tuit"; "postedBy"; "postedOn"] ∧
  schema_defaults (paths mongoose_TuitSchema.TuitSchema) = ["postedOn"] ∧
  (paths part_001.TuitSchema).*1
  = ["tuit"; "postedBy"; "postedOn"] ++ media ++ ["stats"] ∧
  schema_defaults (paths part_001.TuitSchema)
  = "postedOn" :: ((λ k, "stats." +:+ k) <$> counters) ∧
  (∀ body e c d c',
     create mongoose_TuitSchema.TuitSchema body e c = (Resolved d, c') →
     (body !! "postedOn" = None → d !! "postedOn" = Some (VDate (now e))) ∧
     ∀ k, k ∈ "stats" :: media → d !! k = None) ∧
  (∀ body e c d c',
     create part_001.TuitSchema body e c = (Resolved d, c') →
     (body !! "postedOn" = None → d !! "postedOn" = Some (VDate (now e))) ∧
     (∀ k s, k ∈ media → body !! k = Some (VStr s) → d !! k = Some (VStr s)) ∧
     (∀ k, k ∈ counters → counter body k = None →
           counter d k = Some (VNum 0))).
Proof.
  split_and!; [reflexivity..| |].
  - intros body e c d c' Hc. split.
    + apply (default_postedOn mongoose_TuitSchema.TuitSchema body e c d c');
        auto.
    + intros k. by apply (short_no_extra body e c d c').
  - intros body e c d c' Hc. split_and!.
    + apply (default_postedOn part_001.TuitSchema body e c d c'); auto.
    + intros k s. by apply (full_media body e c d c').
    + intros k. by apply (full_counter body e c d c').
Qed.

Lemma C4_witness :
  picture_short !! "image" = None ∧ picture_short !! "stats" = None ∧
  picture_full !! "image" = Some (VStr "cat.png") ∧
  counter picture_full "replies" = Some (VNum 0).
Proof.
  destruct C4_two_declarations as (_ & _ & _ & _ & _ & _ & Hshort & Hfull).
  destruct (Hshort picture e0 [] picture_short [picture_short]) as [_ Hno];
    [vm_compute; reflexivity|].
  destruct (Hfull picture e0 [] picture_full [picture_full]) as (_ & Hm & Hc);
    [vm_compute; reflexivity|].
  split_and!.
  - apply Hno. apply list_elem_of_In; simpl; tauto.
  - apply Hno. apply list_elem_of_here.
  - apply Hm; [|reflexivity]. apply list_elem_of_here.
  - apply Hc; [|reflexivity]. apply list_elem_of_here.
Defined.

(** A tuit that has a non-empty text and an author, and nothing else, is
    inserted under either declaration once the generated key is fresh. *)
Lemma create_text_resolves (uid text : string) (e : env) (c : collection) :
  text ≠ "" → has_id (oid e) c = false →
  create part_001.TuitSchema
    (<["postedBy" := VStr uid]> {[ "tuit" := VStr text ]}) e c
  = (let d := {[ "_id" := VStr (oid e); "__v" := VNum 0; "tuit" := VStr text;
                "postedBy" := VStr uid; "postedOn" := VDate (now e);
                "stats" := VObj zero_stats ]} in
     (Resolved d, c ++ [d])) ∧
  create mongoose_TuitSchema.TuitSchema
    (<["postedBy" := VStr uid]> {[ "tuit" := VStr text ]}) e c
  = (let d := {[ "_id" := VStr (oid e); "__v" := VNum 0; "tuit" := VStr text;
                "postedBy" := VStr uid; "postedOn" := VDate (now e) ]} in
     (Resolved d, c ++ [d])).
Proof.
  intros Htext Hfresh. destruct text as [|a text]; [done|].
  unfold create. split.
  - replace (apply_schema _ _ _) with
      (({[ "tuit" := VStr (String a text); "postedBy" := VStr uid;
           "postedOn" := VDate (now e); "stats" := VObj zero_stats ]}
        : gmap string value), ([] : list (string * validator)))
      by (by vm_compute).
    replace (_ !! "_id") with (None : option value) by (by vm_compute).
    cbv zeta; simpl. rewrite Hfresh. by vm_compute.
  - replace (apply_schema _ _ _) with
      (({[ "tuit" := VStr (String a text); "postedBy" := VStr uid;
           "postedOn" := VDate (now e) ]}
        : gmap string value), ([] : list (string * validator)))
      by (by vm_compute).
    replace (_ !! "_id") with (None : option value) by (by vm_compute).
    cbv zeta; simpl. rewrite Hfresh. by vm_compute.
Qed.

End tuit_schemas.

(** ** Routing and the controller *)

Section routing.
Import Express.

Lemma match_segments_nil segs ps :
  match_segments [] segs = Some ps ↔ (segs = [] ∨ segs = [""]) ∧ ps = ∅.
Proof.
  destruct segs as [|[|] [|]]; simpl; split;
    first [ by intros [= <-]; auto | by intros [[|] _] | by intros [_ ->] ].
Qed.

Lemma match_segments_Lit l pat segs ps :
  match_segments (Lit l :: pat) segs = Some ps ↔
  ∃ s segs', segs = s :: segs' ∧ lowercase s = lowercase l ∧
             match_segments pat segs' = Some ps.
Proof.
  destruct segs as [|s segs']; simpl.
  { split; [done|]. by intros (? & ? & ? & _). }
  destruct (String.eqb_spec (lowercase s) (lowercase l)) as [Heq|Hne]; split.
  - intros H. by exists s, segs'.
  - by intros (? & ? & [= <- <-] & _ & H).
  - done.
  - intros (? & ? & [= <- <-] & H & _). congruence.
Qed.

Lemma match_segments_Param n pat segs ps :
  match_segments (Param n :: pat) segs = Some ps ↔
  ∃ s segs' ps', segs = s :: segs' ∧ s ≠ "" ∧
                 match_segments pat segs' = Some ps' ∧ ps = <[n := s]> ps'.
Proof.
  destruct segs as [|s segs']; simpl.
  { split; [done|]. by intros (? & ? & ? & ? & _). }
  destruct (String.eqb_spec s "") as [Heq|Hne]; split.
  - done.
  - intros (? & ? & ? & [= <- <-] & H & _). congruence.
  - intros (ps' & H & ->)%fmap_Some. by exists s, segs', ps'.
  - intros (? & ? & ps' & [= <- <-] & _ & -> & ->). done.
Qed.

Lemma match_segments_params pat segs ps k :
  match_segments pat segs = Some ps →
  is_Some (ps !! k) ↔ Param k ∈ pat.
Proof.
  revert segs ps. induction pat as [|[l|n] pat IH]; intros segs ps.
  - intros [_ ->]%match_segments_nil. rewrite lookup_empty, elem_of_nil.
    split; [by intros []|done].
  - intros (s & segs' & -> & _ & H)%match_segments_Lit.
    rewrite (IH _ _ H), elem_of_cons.
    split; [by right|]. by intros [|].
  - intros (s & segs' & ps' & -> & _ & H & ->)%match_segments_Param.
    rewrite elem_of_cons. destruct (decide (n = k)) as [->|Hne].
    + rewrite lookup_insert_eq. split; [by left|by eexists].
    + rewrite lookup_insert_ne by done. rewrite (IH _ _ H).
      split; [by right|]. intros [[= ->]|]; done.
Qed.

Lemma match_tuits_tid u ps :
  match_path "/tuits/:tid" u = Some ps →
  ∃ s tid rest, split "/" u = "" :: s :: tid :: rest ∧
    lowercase s = "tuits" ∧ tid ≠ "" ∧ (rest = [] ∨ rest = [""]) ∧
    ps = {[ "tid" := tid ]}.
Proof.
  unfold match_path.
  change (split "/" "/tuits/:tid") with [""; "tuits"; ":tid"].
  destruct (split "/" u) as [|[|] segs]; [done| |done].
  change (segment_of <$> ["tuits"; ":tid"]) with [Lit "tuits"; Param "tid"].
  intros (s & segs' & -> & Hs & H)%match_segments_Lit.
  apply match_segments_Param in H as (tid & rest & ps' & -> & Htid & H & ->).
  apply match_segments_nil in H as [Hrest ->].
  by exists s, tid, rest.
Qed.

Lemma match_users_uid_tuits u ps :
  match_path "/users/:uid/tuits" u = Some ps →
  ∃ uid, uid ≠ "" ∧ ps = {[ "uid" := uid ]}.
Proof.
  unfold match_path.
  change (split "/" "/users/:uid/tuits") with [""; "users"; ":uid"; "tuits"].
  destruct (split "/" u) as [|[|] segs]; [done| |done].
  change (segment_of <$> ["users"; ":uid"; "tuits"])
    with [Lit "users"; Param "uid"; Lit "tuits"].
  intros (s & segs' & -> & Hs & H)%match_segments_Lit.
  apply match_segments_Param in H as (uid & rest & ps' & -> & Huid & H & ->).
  apply match_segments_Lit in H as (s' & rest' & -> & _ & H).
  apply match_segments_nil in H as [Hrest ->].
  by exists uid.
Qed.

Lemma match_tuits_tid_only u ps :
  match_path "/tuits/:tid" u = Some ps →
  match_path "/tuits" u = None ∧ match_path "/users/:uid/tuits" u = None.
Proof.
  intros (s & tid & rest & Hu & Hs & Htid & Hrest & _)%match_tuits_tid.
  unfold match_path. rewrite Hu.
  change (split "/" "/tuits") with [""; "tuits"].
  change (split "/" "/users/:uid/tuits") with [""; "users"; ":uid"; "tuits"].
  change (segment_of <$> ["tuits"]) with [Lit "tuits"].
  change (segment_of <$> ["users"; ":uid"; "tuits"])
    with [Lit "users"; Param "uid"; Lit "tuits"].
  split.
  - destruct (match_segments _ _) as [ps'|] eqn:H; [|done].
    apply match_segments_Lit in H as (? & ? & [= <- <-] & _ & H).
    apply match_segments_nil in H as [[|[= -> _]] _]; done.
  - destruct (match_segments _ _) as [ps'|] eqn:H; [|done].
    apply match_segments_Lit in H as (? & ? & [= <- <-] & H & _).
    rewrite Hs in H. done.
Qed.

Lemma handle_other r app m :
  route_verb r ≠ verb m → handle (r :: app) m = handle app m.
Proof. intros H; simpl. by destruct (decide _). Qed.

Lemma handle_miss r app m :
  match_path (route_path r) (url m) = None →
  handle (r :: app) m = handle app m.
Proof. intros H; simpl. rewrite H. by destruct (decide _). Qed.

Lemma handle_hit r app m ps :
  route_verb r = verb m → match_path (route_path r) (url m) = Some ps →
  handle (r :: app) m
  = Some (callback r {| params := ps; body := payload m |} fresh).
Proof. intros Hv H; simpl. rewrite H. by destruct (decide _). Qed.

End routing.

Section controller.
Import Express TuitController Samples.
Variable tuitDao : TuitDaoI.t.

Lemma server_routes :
  server tuitDao =
  [ {| route_verb := GET; route_path := "/tuits";
       callback := findAllTuits tuitDao |};
    {| route_verb := GET; route_path := "/users/:uid/tuits";
       callback := findTuitsByUser tuitDao |};
    {| route_verb := GET; route_path := "/tuits/:tid";
       callback := findTuitById tuitDao |};
    {| route_verb := POST; route_path := "/users/:uid/tuits";
       callback := createTuit tuitDao |};
    {| route_verb := DELETE; route_path := "/tuits/:tid";
       callback := deleteTuit tuitDao |};
    {| route_verb := PUT; route_path := "/tuits/:tid";
       callback := updateTuit tuitDao |} ].
Proof. reflexivity. Qed.

Lemma handle_get_tuit m ps :
  verb m = GET → match_path "/tuits/:tid" (url m) = Some ps →
  handle (server tuitDao) m
  = Some (findTuitById tuitDao {| params := ps; body := payload m |} fresh).
Proof.
  intros Hv Hp. destruct (match_tuits_tid_only _ _ Hp) as [H1 H2].
  rewrite server_routes.
  rewrite handle_miss by done. rewrite handle_miss by done.
  by rewrite (handle_hit _ _ _ ps).
Qed.

Lemma handle_post_tuit m ps :
  verb m = POST → match_path "/users/:uid/tuits" (url m) = Some ps →
  handle (server tuitDao) m
  = Some (createTuit tuitDao {| params := ps; body := payload m |} fresh).
Proof.
  intros Hv Hp. rewrite server_routes.
  do 3 (rewrite handle_other by (rewrite Hv; done)).
  by rewrite (handle_hit _ _ _ ps).
Qed.

Lemma handle_delete_tuit m ps :
  verb m = DELETE → match_path "/tuits/:tid" (url m) = Some ps →
  handle (server tuitDao) m
  = Some (deleteTuit tuitDao {| params := ps; body := payload m |} fresh).
Proof.
  intros Hv Hp. rewrite server_routes.
  do 4 (rewrite handle_other by (rewrite Hv; done)).
  by rewrite (handle_hit _ _ _ ps).
Qed.

Lemma handle_put_tuit m ps :
  verb m = PUT → match_path "/tuits/:tid" (url m) = Some ps →
  handle (server tuitDao) m
  = Some (updateTuit tuitDao {| params := ps; body := payload m |} fresh).
Proof.
  intros Hv Hp. rewrite server_routes.
  do 5 (rewrite handle_other by (rewrite Hv; done)).
  by rewrite (handle_hit _ _ _ ps).
Qed.

(** C1. The DELETE and PUT routes are registered on [/tuits/:tid], so a
    request they match has [tid] as its only parameter; [deleteTuit] and
    [updateTuit] read [tuitId], and for every such request the identifier
    they hand to the DAO is [undefined]. *)
Theorem C1_tuitId_undefined (m : IncomingMessage) ps :
  match_path "/tuits/:tid" (url m) = Some ps →
  server tuitDao !! 4
  = Some {| route_verb := DELETE; route_path := "/tuits/:tid";
            callback := deleteTuit tuitDao |} ∧
  server tuitDao !! 5
  = Some {| route_verb := PUT; route_path := "/tuits/:tid";
            callback := updateTuit tuitDao |} ∧
  (∃ tid, ps = {[ "tid" := tid ]}) ∧
  ps !! "tuitId" = None ∧
  (verb m = DELETE →
   handle (server tuitDao) m
   = Some (then_ (TuitDaoI.deleteTuit tuitDao None)
                 (λ status, send status fresh))) ∧
  (verb m = PUT →
   handle (server tuitDao) m
   = Some (then_ (TuitDaoI.updateTuit tuitDao None (payload m))
                 (λ status, send status fresh))).
Proof.
  intros Hp.
  destruct (match_tuits_tid _ _ Hp) as (s & tid & rest & _ & _ & _ & _ & Hps).
  assert (ps !! "tuitId" = None) as Hnone by (by rewrite Hps).
  split_and!; [reflexivity..|by exists tid|done| |].
  - intros Hv. rewrite (handle_delete_tuit m ps Hv Hp).
    unfold deleteTuit; simpl. by rewrite Hnone.
  - intros Hv. rewrite (handle_put_tuit m ps Hv Hp).
    unfold updateTuit; simpl. by rewrite Hnone.
Qed.

End controller.

(** ** Requests for one tuit, and creating a tuit *)

Section tuit_requests.
Import Mongoose Express TuitController Samples.

Lemma C1_witness :
  handle (server (TuitDao.getInstance part_001.TuitSchema)) (del "/tuits/t0")
  = Some (then_ (TuitDaoI.deleteTuit (TuitDao.getInstance part_001.TuitSchema)
                   None)
                (λ status, send status fresh)) ∧
  handle (server (TuitDao.getInstance part_001.TuitSchema))
         (put "/tuits/t0" hello)
  = Some (then_ (TuitDaoI.updateTuit (TuitDao.getInstance part_001.TuitSchema)
                   None hello)
                (λ status, send status fresh)).
Proof.
  split.
  - destruct (C1_tuitId_undefined (TuitDao.getInstance part_001.TuitSchema)
                (del "/tuits/t0") {[ "tid" := "t0" ]})
      as (_ & _ & _ & _ & Hdel & _).
    + vm_compute; reflexivity.
    + apply Hdel; reflexivity.
  - destruct (C1_tuitId_undefined (TuitDao.getInstance part_001.TuitSchema)
                (put "/tuits/t0" hello) {[ "tid" := "t0" ]})
      as (_ & _ & _ & _ & _ & Hput).
    + vm_compute; reflexivity.
    + apply Hput; reflexivity.
Defined.

(** C2. For every POST [/users/:uid/tuits] request, whatever its body,
    the created document sent back to the client (and appended to the
    collection) has [postedBy] equal to the [uid] path parameter, also when
    the body carries a [postedBy] of its own. *)
Theorem C2_postedBy_is_uid sch (m : IncomingMessage) ps e c res c' :
  sch = mongoose_TuitSchema.TuitSchema ∨ sch = part_001.TuitSchema →
  verb m = POST →
  match_path "/users/:uid/tuits" (url m) = Some ps →
  serve (server (TuitDao.getInstance sch)) m e c = Some (Resolved res, c') →
  ∃ uid d,
    ps !! "uid" = Some uid ∧
    statusCode res = 200 ∧ sent res = Some (VObj d) ∧
    d !! "postedBy" = Some (VStr uid) ∧
    c' = c ++ [d].
Proof.
  intros Hsch Hv Hp. unfold serve.
  rewrite (handle_post_tuit _ m ps Hv Hp).
  destruct (match_users_uid_tuits _ _ Hp) as (uid & _ & ->).
  unfold createTuit, then_; simpl. rewrite lookup_singleton_eq.
  unfold TuitDao.createTuit.
  destruct (create sch _ e c) as [[d|err] c''] eqn:Hc; intros [= <- <-].
  exists uid, d. split_and!; [done..| |].
  - assert (d !! "postedBy" =
            (apply_path (now e) "postedBy" (Path SObjectId false None)
               (<["postedBy" := VStr uid]> (payload m) !! "postedBy")).1) as ->.
    { destruct Hsch as [-> | ->].
      - eapply create_field; [done|apply short_NoDup| |done..].
        apply list_elem_of_In; simpl; tauto.
      - eapply create_field; [done|apply full_NoDup| |done..].
        apply list_elem_of_In; simpl; tauto. }
    by rewrite lookup_insert_eq.
  - by apply create_Resolved in Hc as (id & _ & _ & _ & _ & ->).
Qed.

Lemma C2_witness :
  ∃ uid d,
    ({[ "uid" := "u1" ]} : gmap string string) !! "uid" = Some uid ∧
    statusCode {| statusCode := 200; sent := Some (VObj created_by_u1) |}
    = 200 ∧
    sent {| statusCode := 200; sent := Some (VObj created_by_u1) |}
    = Some (VObj d) ∧
    d !! "postedBy" = Some (VStr uid) ∧
    [stored; created_by_u1] = [stored] ++ [d].
Proof.
  apply (C2_postedBy_is_uid part_001.TuitSchema
           (post "/users/u1/tuits" claimed) _ e0).
  - right; reflexivity.
  - reflexivity.
  - vm_compute; reflexivity.
  - vm_compute; reflexivity.
Defined.

(** C8. For every GET [/tuits/:tid] request, [findTuitById] looks up the
    [tid] path parameter and answers, with the status left at 200, the
    stored document that has this primary key, or JSON null when no
    document has it; the collection is not changed. *)
Theorem C8_findTuitById sch (m : IncomingMessage) ps e c :
  verb m = GET →
  match_path "/tuits/:tid" (url m) = Some ps →
  ∃ tid v,
    ps !! "tid" = Some tid ∧
    serve (server (TuitDao.getInstance sch)) m e c
    = Some (Resolved {| statusCode := 200; sent := Some v |}, c) ∧
    ((∃ d, v = VObj d ∧ d ∈ c ∧ d !! "_id" = Some (VStr tid)) ∨
     (v = VNull ∧ Forall (λ d, d !! "_id" ≠ Some (VStr tid)) c)).
Proof.
  intros Hv Hp. unfold serve.
  rewrite (handle_get_tuit _ m ps Hv Hp).
  destruct (match_tuits_tid _ _ Hp) as (s & tid & rest & _ & _ & _ & _ & ->).
  unfold findTuitById, then_; simpl. rewrite lookup_singleton_eq.
  unfold TuitDao.findTuitById, findById, findOne.
  destruct (first_match _ c) as [[i d]|] eqn:Hfm; simpl.
  - exists tid, (VObj d). split_and!; [done..|]. left. exists d.
    apply first_match_Some in Hfm as (Hi & Hm%matches_id & _).
    split_and!; [done| |done]. apply list_elem_of_lookup. by exists i.
  - exists tid, VNull. split_and!; [done..|]. right. split; [done|].
    apply first_match_None in Hfm. eapply Forall_impl; [exact Hfm|].
    intros d Hd Hid. cbv beta in Hd. apply matches_id in Hid. congruence.
Qed.

Lemma C8_witness :
  ∃ tid v,
    ({[ "tid" := "t0" ]} : gmap string string) !! "tid" = Some tid ∧
    serve (server (TuitDao.getInstance part_001.TuitSchema))
          (get "/tuits/t0") e0 [stored]
    = Some (Resolved {| statusCode := 200; sent := Some v |}, [stored]) ∧
    ((∃ d, v = VObj d ∧ d ∈ [stored] ∧ d !! "_id" = Some (VStr tid)) ∨
     (v = VNull ∧ Forall (λ d, d !! "_id" ≠ Some (VStr tid)) [stored])).
Proof.
  apply (C8_findTuitById part_001.TuitSchema (get "/tuits/t0")).
  - reflexivity.
  - vm_compute; reflexivity.
Defined.

End tuit_requests.

(** ** Updates *)

Section updates.
Import Mongoose Samples.
Implicit Types (sch : Schema) (set d : gmap string value) (c : collection).

Lemma cast_set_fields_cons f prefix kp (fields : list (string * schema_path))
    (given : gmap string value) :
  cast_set_fields f prefix (kp :: fields) given
  = a ← cast_set_fields f prefix fields given;
    match given !! kp.1 with
    | None => Some a
    | Some v => x ← f (prefix +:+ kp.1) kp.2 v; Some (<[kp.1 := x]> a)
    end.
Proof. reflexivity. Qed.

Lemma cast_set_fields_supplied f prefix (fields : list (string * schema_path))
    (given a : gmap string value) k :
  cast_set_fields f prefix fields given = Some a →
  given !! k = None → a !! k = None.
Proof.
  revert a. induction fields as [|kp fs IH]; intros a.
  - by intros [= <-].
  - rewrite cast_set_fields_cons. intros (a0 & Ha0 & Ha)%bind_Some Hk.
    destruct (given !! kp.1) as [v|] eqn:Hv.
    + apply bind_Some in Ha as (x & _ & [= <-]).
      rewrite lookup_insert_ne by (intros <-; congruence). by apply IH.
    + injection Ha as <-. by apply IH.
Qed.

Lemma cast_set_supplied (sch : schema) set s k :
  cast_set sch set = Some s → set !! k = None → s !! k = None.
Proof.
  unfold cast_set. intros (a & Ha & Hs)%bind_Some Hk.
  pose proof (cast_set_fields_supplied _ _ _ _ _ _ Ha Hk) as Hak.
  destruct (set !! "_id") as [v|] eqn:Hid.
  - apply bind_Some in Hs as (x & _ & [= <-]).
    by rewrite lookup_insert_ne by (intros <-; congruence).
  - by injection Hs as <-.
Qed.

Lemma updateOne_frame sch q set e c r c' :
  updateOne sch q set e c = (r, c') →
  length c' = length c ∧
  ∀ i d, c !! i = Some d →
    ∃ d', c' !! i = Some d' ∧
      (∀ k, set !! k = None → d' !! k = d !! k) ∧
      (matches q d = false → d' = d).
Proof.
  unfold updateOne.
  assert (length c = length c ∧
          ∀ i d, c !! i = Some d →
            ∃ d', c !! i = Some d' ∧
              (∀ k, set !! k = None → d' !! k = d !! k) ∧
              (matches q d = false → d' = d)) as Hsame.
  { split; [done|]. intros i d Hi. by exists d. }
  destruct (cast_set (paths sch) set) as [s|] eqn:Hs; [|by intros [= <- <-]].
  destruct (decide (s = ∅)); [by intros [= <- <-]|].
  destruct (first_match q c) as [[i0 d0]|] eqn:Hfm; [|by intros [= <- <-]].
  destruct (decide _); [by intros [= <- <-]|].
  intros [= <- <-]. apply first_match_Some in Hfm as (Hi0 & Hm & _).
  split; [by rewrite length_insert|].
  intros i d Hi. destruct (decide (i = i0)) as [->|Hne].
  - assert (d = d0) as -> by congruence.
    exists (s ∪ d0). split_and!.
    + apply list_lookup_insert_eq. by eapply lookup_lt_Some.
    + intros k Hk. apply lookup_union_r. by eapply cast_set_supplied.
    + congruence.
  - exists d. by rewrite list_lookup_insert_ne.
Qed.

Lemma updateOne_Acknowledged sch q set e c m n c' :
  updateOne sch q set e c = (Resolved (Acknowledged m n), c') →
  (m = 0 ∧ n = 0 ∧ c' = c ∧ first_match q c = None) ∨
  (m = 1 ∧ ∃ i d s, first_match q c = Some (i, d) ∧
                    cast_set (paths sch) set = Some s ∧
                    c' = <[i := s ∪ d]> c).
Proof.
  unfold updateOne.
  destruct (cast_set (paths sch) set) as [s|] eqn:Hs; [|by intros [=]].
  destruct (decide (s = ∅)); [by intros [=]|].
  destruct (first_match q c) as [[i0 d0]|] eqn:Hfm.
  - destruct (decide _); [by intros [=]|].
    intros [= <- _ <-]. right. split; [done|]. by exists i0, d0, s.
  - intros [= <- <- <-]. by left.
Qed.

(** The same for the tuits DAO, when it is given a key. *)
Lemma updateTuit_frame sch (tid : string) (tuit : gmap string value) e c r c'
    i d :
  TuitDao.updateTuit sch (Some tid) tuit e c = (r, c') →
  c !! i = Some d →
  length c' = length c ∧
  ∃ d', c' !! i = Some d' ∧
    (∀ k, tuit !! k = None → d' !! k = d !! k) ∧
    (d !! "_id" ≠ Some (VStr tid) → d' = d).
Proof.
  intros Hu Hi.
  apply (updateOne_frame sch _ tuit e c r c') in Hu as [Hlen Hframe].
  split; [done|]. destruct (Hframe i d Hi) as (d' & Hd' & Hk & Hother).
  exists d'. split; [exact Hd'|]. split; [exact Hk|].
  intros Hid. apply Hother. destruct (matches _ d) eqn:Hm; [|done].
  by apply matches_id in Hm.
Qed.

(** C6. An update by primary key with a partial object changes only fields
    present in the object: every stored document keeps, for each field the
    object omits, the value it had before, and a document with another
    primary key is left whole. *)
Theorem C6_update_keeps_omitted (UserSchema : Schema) (userId : string)
    (user : gmap string value) (e : env) (c : collection) r c' i d :
  UserDao.updateUser UserSchema userId user e c = (r, c') →
  c !! i = Some d →
  length c' = length c ∧
  ∃ d', c' !! i = Some d' ∧
    (∀ k, user !! k = None → d' !! k = d !! k) ∧
    (d !! "_id" ≠ Some (VStr userId) → d' = d).
Proof.
  intros Hu Hi.
  apply (updateOne_frame UserSchema _ user e c r c') in Hu as [Hlen Hframe].
  split; [done|]. destruct (Hframe i d Hi) as (d' & Hd' & Hk & Hother).
  exists d'. split; [exact Hd'|]. split; [exact Hk|].
  intros Hid. apply Hother. destruct (matches _ d) eqn:Hm; [|done].
  by apply matches_id in Hm.
Qed.

Lemma C6_witness :
  length [alice'; bob] = length [alice; bob] ∧
  ∃ d', [alice'; bob] !! 0 = Some d' ∧
    (∀ k, new_password !! k = None → d' !! k = alice !! k) ∧
    (alice !! "_id" ≠ Some (VStr "u1") → d' = alice).
Proof.
  apply (C6_update_keeps_omitted UserSchema "u1" new_password e0 [alice; bob]
           (Resolved (Acknowledged 1 1))).
  - vm_compute; reflexivity.
  - reflexivity.
Defined.
End updates.

(** ** The driver: more on queries *)

Section more_queries.
Import Mongoose.
Implicit Types (q : filter) (c : collection) (d : gmap string value).

Lemma filter_everything c : List.filter (matches []) c = c.
Proof. induction c as [|d c IH]; simpl; [done|]. by rewrite IH. Qed.

Lemma filter_nothing c : List.filter (λ d, negb (matches [] d)) c = [].
Proof. induction c as [|d c IH]; simpl; done. Qed.

Lemma filter_sublist (f : gmap string value → bool) c :
  List.filter f c `sublist_of` c.
Proof.
  induction c as [|d c IH]; simpl; [constructor|].
  destruct (f d); by constructor.
Qed.

Lemma filter_elem_of (f : gmap string value → bool) c d :
  d ∈ List.filter f c ↔ d ∈ c ∧ f d = true.
Proof. rewrite !list_elem_of_In. apply filter_In. Qed.

Lemma filter_partition (f : gmap string value → bool) c :
  length (List.filter f c) + length (List.filter (λ d, negb (f d)) c)
  = length c.
Proof.
  induction c as [|d c IH]; simpl; [done|].
  destruct (f d); simpl; lia.
Qed.

Lemma first_match_app_r q c d :
  Forall (λ d0, matches q d0 = false) c → matches q d = true →
  first_match q (c ++ [d]) = Some (length c, d).
Proof.
  intros Hc Hd. induction Hc as [|d0 c Hd0 _ IH]; simpl.
  - by rewrite Hd.
  - by rewrite Hd0, IH.
Qed.

Lemma first_match_app_l q c c' i d :
  first_match q c = Some (i, d) → first_match q (c ++ c') = Some (i, d).
Proof.
  revert i. induction c as [|d0 c IH]; intros i; simpl; [done|].
  destruct (matches q d0); [done|].
  destruct (first_match q c) as [[j d']|]; simpl; [|done].
  intros [= <- <-]. by rewrite (IH j eq_refl).
Qed.

Lemma first_match_delete_other q c i d :
  c !! i = Some d → matches q d = false →
  snd <$> first_match q (delete i c) = snd <$> first_match q c.
Proof.
  revert i. induction c as [|d0 c IH]; intros [|i]; simpl; try done.
  - intros [= ->] ->. by destruct (first_match q c) as [[]|].
  - intros Hi Hd. destruct (matches q d0); [done|].
    specialize (IH i Hi Hd).
    destruct (first_match q (delete i c)) as [[]|],
             (first_match q c) as [[]|]; simpl in *; congruence.
Qed.

Lemma first_match_insert q c i d d' :
  first_match q c = Some (i, d) → matches q d' = true →
  first_match q (<[i := d']> c) = Some (i, d').
Proof.
  revert i. induction c as [|d0 c IH]; intros i; simpl; [done|].
  destruct (matches q d0) eqn:Hd0.
  - intros [= <- <-] Hd'. simpl. by rewrite Hd'.
  - destruct (first_match q c) as [[j d1]|]; simpl; [|done].
    intros [= <- <-] Hd'. simpl. by rewrite Hd0, (IH j eq_refl Hd').
Qed.

Lemma has_id_false id c :
  has_id id c = false ↔ Forall (λ d, d !! "_id" ≠ Some (VStr id)) c.
Proof.
  unfold has_id. induction c as [|d c IH]; simpl.
  - split; [constructor|done].
  - rewrite orb_false_iff, IH, Forall_cons. 
    assert (matches [("_id", Some id)] d = false ↔ d !! "_id" ≠ Some (VStr id))
      as ->; [|done].
    rewrite <- matches_id. by destruct (matches _ d).
Qed.

Lemma matches_username username d :
  matches [("username", Some username)] d = true
  ↔ d !! "username" = Some (VStr username).
Proof. unfold matches; simpl. rewrite andb_true_r. apply matches_text. Qed.

Lemma no_match_false q d : matches q d ≠ true ↔ matches q d = false.
Proof. by destruct (matches q d). Qed.

End more_queries.

(** ** [UserDao]: the singleton, and how its methods compose *)

Section user_dao_more.
Import Mongoose Samples.
Implicit Types (sch : Schema) (c : collection) (d : gmap string value).

Lemma create_Rejected sch (body : gmap string value) e c err c' :
  create sch body e c = (Rejected err, c') → c' = c.
Proof.
  unfold create.
  destruct (body !! "_id") as [[]|];
    destruct (apply_schema _ _ _).2; try (by intros [= _ <-]);
    match goal with |- context [has_id ?i c] => destruct (has_id i c) end;
    by intros [= <-].
Qed.

(** X1. [UserDao.getInstance] makes an instance only while the static field
    is null: the instance it returns is the one the field holds afterwards,
    and a further call returns that same instance and changes nothing. *)
Theorem UserDao_getInstance_singleton (k : UserDao.statics) :
  let r1 := UserDao.getInstance k in
  let r2 := UserDao.getInstance r1.1 in
  UserDao.userDao r1.1 = Some r1.2 ∧ r2 = r1 ∧
  (UserDao.userDao k = None → r1.2 = UserDao.allocated k ∧
     UserDao.allocated r1.1 = S (UserDao.allocated k)) ∧
  (∀ o, UserDao.userDao k = Some o → r1 = (k, o)).
Proof.
  unfold UserDao.getInstance. destruct k as [[o|] n]; simpl.
  - split_and!; try done. by intros ? [= <-].
  - split_and!; done.
Qed.

(** X2. [createUser] appends one document, under a primary key that no
    stored user had, or rejects and leaves the collection as it was. The
    created user is then found by [findUserById] under its key, and
    [findAllUsers] lists the earlier users followed by it. *)
Theorem createUser_then_find sch (user : gmap string value) e c r c' :
  UserDao.createUser sch user e c = (r, c') →
  match r with
  | Resolved d =>
      c' = c ++ [d] ∧
      ∃ id, d !! "_id" = Some (VStr id) ∧
        Forall (λ d0, d0 !! "_id" ≠ Some (VStr id)) c ∧
        (∀ e', UserDao.findUserById id e' c' = (Resolved (Some d), c')) ∧
        (∀ e', UserDao.findAllUsers e' c' = (Resolved (c ++ [d]), c'))
  | Rejected _ => c' = c
  end.
Proof.
  unfold UserDao.createUser. destruct r as [d|err].
  - intros (id & _ & _ & Hfresh & Hd & ->)%create_Resolved.
    split; [done|]. exists id.
    assert (d !! "_id" = Some (VStr id)) as Hid
      by (by rewrite Hd, lookup_insert_eq).
    apply has_id_false in Hfresh. split_and!; [done..| |].
    + intros e'. unfold UserDao.findUserById, findById, findOne.
      rewrite (first_match_app_r _ c d); [done| |by apply matches_id].
      eapply Forall_impl; [exact Hfresh|]. intros d0 Hd0; cbv beta in *.
      apply no_match_false. by rewrite matches_id.
    + intros e'. unfold UserDao.findAllUsers, find.
      by rewrite filter_everything.
  - apply create_Rejected.
Qed.

(** X3. [deleteAllUsers] removes every user and reports how many there
    were; [findAllUsers] resolves to the whole collection, in order. *)
Theorem deleteAllUsers_empties e c :
  UserDao.deleteAllUsers e c = (Resolved {| deletedCount := length c |}, []) ∧
  (∀ e', UserDao.findAllUsers e' c = (Resolved c, c)).
Proof.
  unfold UserDao.deleteAllUsers, UserDao.findAllUsers, deleteMany, find.
  by rewrite filter_everything, filter_nothing.
Qed.

(** X4. [deleteUsersByUsername] removes exactly the users of that name and
    reports their number; the others stay, in their order, and
    [findUserByUsername] of that name then resolves to null. *)
Theorem deleteUsersByUsername_exact (username : string) e c r c' :
  UserDao.deleteUsersByUsername username e c = (r, c') →
  ∃ n, r = Resolved {| deletedCount := n |} ∧
    n + length c' = length c ∧
    c' `sublist_of` c ∧
    (∀ d, d ∈ c' ↔ d ∈ c ∧ d !! "username" ≠ Some (VStr username)) ∧
    (n = 0 ↔ Forall (λ d, d !! "username" ≠ Some (VStr username)) c) ∧
    ∀ e', UserDao.findUserByUsername username e' c' = (Resolved None, c').
Proof.
  unfold UserDao.deleteUsersByUsername, deleteMany. intros [= <- <-].
  eexists. split; [reflexivity|].
  assert (∀ d, negb (matches [("username", Some username)] d) = true
               ↔ d !! "username" ≠ Some (VStr username)) as Hneg.
  { intros d. rewrite negb_true_iff, <- no_match_false.
    by rewrite matches_username. }
  split_and!.
  - apply filter_partition.
  - apply filter_sublist.
  - intros d. rewrite filter_elem_of. specialize (Hneg d). tauto.
  - rewrite length_zero_iff_nil. split.
    + intros Hnil. apply Forall_forall. intros d Hd Hname.
      apply matches_username in Hname.
      assert (d ∈ List.filter (matches [("username", Some username)]) c) as Hin
        by (by apply filter_elem_of).
      rewrite Hnil in Hin. by apply elem_of_nil in Hin.
    + intros Hall. destruct (List.filter _ c) as [|d l] eqn:Hf; [done|].
      assert (d ∈ List.filter (matches [("username", Some username)]) c) as Hin
        by (rewrite Hf; apply list_elem_of_here).
      apply filter_elem_of in Hin as [Hin Hm].
      apply matches_username in Hm.
      by destruct (proj1 (Forall_forall _ _) Hall d Hin).
  - intros e'. unfold UserDao.findUserByUsername, findOne.
    replace (first_match _ _) with (None : option (nat * gmap string value));
      [done|].
    symmetry. apply first_match_None. apply Forall_forall. intros d Hd.
    apply filter_elem_of in Hd as [_ Hd]. by apply negb_true_iff.
Qed.

(** X5. [findUserByUsername] always resolves: to the earliest stored user
    of that name, or to null when there is none. *)
Theorem findUserByUsername_first (username : string) e c :
  ∃ r, UserDao.findUserByUsername username e c = (Resolved r, c) ∧
    match r with
    | Some d =>
        ∃ i, c !! i = Some d ∧ d !! "username" = Some (VStr username) ∧
          ∀ j d', j < i → c !! j = Some d' →
                  d' !! "username" ≠ Some (VStr username)
    | None => Forall (λ d, d !! "username" ≠ Some (VStr username)) c
    end.
Proof.
  unfold UserDao.findUserByUsername, findOne.
  destruct (first_match _ c) as [[i d]|] eqn:Hfm; eexists; (split; [done|]).
  - apply first_match_Some in Hfm as (Hi & Hm & Hlt).
    exists i. split_and!; [done|by apply matches_username|].
    intros j d' Hj Hd' Hname. apply matches_username in Hname.
    specialize (Hlt j d' Hj Hd'). congruence.
  - apply first_match_None in Hfm. eapply Forall_impl; [exact Hfm|].
    intros d Hd Hname. cbv beta in Hd. apply matches_username in Hname.
    congruence.
Qed.

(** X6. When [findUserByCredentials] finds a user, [findUserByUsername] of
    the same name finds one too, of that name. *)
Theorem credentials_imply_username (username password : string) e c d :
  UserDao.findUserByCredentials username password e c = (Resolved (Some d), c) →
  ∃ d', UserDao.findUserByUsername username e c = (Resolved (Some d'), c) ∧
        d' !! "username" = Some (VStr username).
Proof.
  unfold UserDao.findUserByCredentials, UserDao.findUserByUsername, findOne.
  intros [= Hfm].
  destruct (first_match [("username", _); _] c) as [[i d0]|] eqn:Hc;
    simpl in Hfm; [|done]. injection Hfm as ->.
  apply first_match_Some in Hc as (Hi & [Hu _]%matches_credentials & _).
  destruct (first_match [("username", Some username)] c) as [[j d']|] eqn:Hn.
  - exists d'. split; [done|].
    by apply first_match_Some in Hn as (_ & Hm%matches_username & _).
  - apply first_match_None in Hn.
    pose proof (proj1 (Forall_lookup _ _) Hn i d Hi) as Hm; cbv beta in Hm.
    apply matches_username in Hu. congruence.
Qed.

End user_dao_more.

(** ** [UserDao]: primary keys stay unique *)

Section keys.
Import Mongoose Samples.
Implicit Types (sch : Schema) (c : collection) (d : gmap string value).

Lemma keyed_nil : keyed [].
Proof. split; [constructor|]. unfold keys; simpl. constructor. Qed.

Lemma keyed_sublist c c' : c' `sublist_of` c → keyed c → keyed c'.
Proof.
  intros Hsub [Hall Hnd]. split.
  - apply Forall_forall. intros d Hd.
    apply (proj1 (Forall_forall _ _) Hall d). by eapply elem_of_sublist.
  - eapply sublist_NoDup; [exact Hnd|]. by apply fmap_sublist.
Qed.

Lemma keyed_create sch (body : gmap string value) e c :
  keyed c → keyed (create sch body e c).2.
Proof.
  intros Hk. destruct (create sch body e c) as [[d|err] c'] eqn:Hc; simpl.
  - apply create_Resolved in Hc as (id & _ & _ & Hfresh & Hd & ->).
    assert (d !! "_id" = Some (VStr id)) as Hid
      by (by rewrite Hd, lookup_insert_eq).
    apply has_id_false in Hfresh. destruct Hk as [Hall Hnd]. split.
    + apply Forall_app. split; [done|]. constructor; [by exists id|constructor].
    + unfold keys in *. rewrite fmap_app. apply NoDup_app. split_and!.
      * done.
      * intros k (d0 & -> & Hd0)%list_elem_of_fmap Hin. simpl in Hin.
        apply list_elem_of_singleton in Hin.
        apply (proj1 (Forall_forall _ _) Hfresh d0 Hd0). congruence.
      * simpl. apply NoDup_singleton.
  - by rewrite (create_Rejected _ _ _ _ _ _ Hc).
Qed.

Lemma keyed_updateOne sch q (set : gmap string value) e c :
  keyed c → keyed (updateOne sch q set e c).2.
Proof.
  intros Hk. destruct (updateOne sch q set e c) as [r c'] eqn:Hu; simpl.
  unfold updateOne in Hu.
  destruct (cast_set (paths sch) set) as [s|]; [|by injection Hu as _ <-].
  destruct (decide (s = ∅)); [by injection Hu as _ <-|].
  destruct (first_match q c) as [[i d]|] eqn:Hfm; [|by injection Hu as _ <-].
  destruct (decide _) as [|Hsame]; [by injection Hu as _ <-|].
  injection Hu as _ <-. apply first_match_Some in Hfm as (Hi & _ & _).
  assert ((s ∪ d) !! "_id" = d !! "_id") as Hid.
  { destruct (s !! "_id") as [v|] eqn:Hs.
    - rewrite (lookup_union_Some_l _ _ _ _ Hs).
      destruct (decide (Some v = d !! "_id")) as [|Hne]; [done|].
      destruct Hsame. split; [by eexists|done].
    - by apply lookup_union_r. }
  destruct Hk as [Hall Hnd]. split.
  - apply Forall_insert; [done|]. rewrite Hid.
    by apply (proj1 (Forall_lookup _ _) Hall i d Hi).
  - unfold keys in *. rewrite list_fmap_insert, Hid.
    rewrite list_insert_id; [done|]. by rewrite list_lookup_fmap, Hi.
Qed.

Lemma perform_keyed sch (c : collection) (k : env * call) :
  keyed c → keyed (perform sch c k).
Proof.
  intros Hk. destruct k as [e [user|userId|userId user| |username]];
    unfold perform; simpl.
  - by apply keyed_create.
  - unfold UserDao.deleteUser, deleteOne.
    destruct (first_match _ c) as [[i d]|]; simpl; [|done].
    eapply keyed_sublist; [apply sublist_delete|done].
  - by apply keyed_updateOne.
  - unfold UserDao.deleteAllUsers, deleteMany; simpl.
    rewrite filter_nothing. apply keyed_nil.
  - unfold UserDao.deleteUsersByUsername, deleteMany; simpl.
    eapply keyed_sublist; [apply filter_sublist|done].
Qed.

(** X7. Whatever sequence of [createUser], [deleteUser], [updateUser],
    [deleteAllUsers] and [deleteUsersByUsername] is run, from the empty
    collection or from one whose keys are unique, every stored user has a
    text primary key and no two share one. *)
Theorem UserDao_keeps_keys sch (ks : list (env * call)) :
  keyed (history sch ks) ∧
  ∀ c, keyed c → keyed (foldl (perform sch) c ks).
Proof.
  assert (∀ c, keyed c → keyed (foldl (perform sch) c ks)) as Hall.
  { induction ks as [|k ks IH]; intros c Hc; simpl; [done|].
    apply IH. by apply perform_keyed. }
  split; [|done]. apply Hall, keyed_nil.
Qed.

Lemma keyed_lookup_inj c i j d d' id :
  keyed c → c !! i = Some d → c !! j = Some d' →
  d !! "_id" = Some (VStr id) → d' !! "_id" = Some (VStr id) → i = j.
Proof.
  intros [_ Hnd] Hi Hj Hd Hd'.
  apply (NoDup_lookup _ i j (Some (VStr id)) Hnd); unfold keys;
    rewrite list_lookup_fmap; [rewrite Hi|rewrite Hj]; simpl; congruence.
Qed.

(** X8. In a collection with unique keys, [deleteUser] of a stored key
    removes that user and reports one removal; [findUserById] of the key
    then resolves to null, and of any other key to what it did before. *)
Theorem deleteUser_then_find (userId : string) e c i d :
  keyed c → c !! i = Some d → d !! "_id" = Some (VStr userId) →
  UserDao.deleteUser userId e c
  = (Resolved {| deletedCount := 1 |}, delete i c) ∧
  (∀ e', UserDao.findUserById userId e' (delete i c)
         = (Resolved None, delete i c)) ∧
  (∀ e' other, other ≠ userId →
     (UserDao.findUserById other e' (delete i c)).1
     = (UserDao.findUserById other e' c).1).
Proof.
  intros Hk Hi Hid. split_and!.
  - unfold UserDao.deleteUser, deleteOne.
    destruct (first_match _ c) as [[j d']|] eqn:Hfm.
    + apply first_match_Some in Hfm as (Hj & Hm%matches_id & _).
      by rewrite (keyed_lookup_inj c j i d' d userId Hk Hj Hi Hm Hid).
    + apply first_match_None in Hfm.
      pose proof (proj1 (Forall_lookup _ _) Hfm i d Hi) as Hm; cbv beta in Hm.
      apply matches_id in Hid. congruence.
  - intros e'. unfold UserDao.findUserById, findById, findOne.
    rewrite no_id_no_match; [done|].
    apply Forall_forall. intros d' Hd' Hid'.
    apply list_elem_of_lookup in Hd' as [j Hj].
    destruct (decide (j < i)).
    + rewrite list_lookup_delete_lt in Hj by done.
      pose proof (keyed_lookup_inj c j i d' d userId Hk Hj Hi Hid' Hid). lia.
    + rewrite list_lookup_delete_ge in Hj by lia.
      pose proof (keyed_lookup_inj c (S j) i d' d userId Hk Hj Hi Hid' Hid).
      lia.
  - intros e' other Hne. unfold UserDao.findUserById, findById, findOne; simpl.
    f_equal. apply (first_match_delete_other _ c i d Hi).
    apply no_match_false. rewrite matches_id. congruence.
Qed.

End keys.

(** ** Updates that reach a document, and the shape of a new tuit *)

Section updates_more.
Import Mongoose Samples.
Implicit Types (sch : Schema) (c : collection) (d : gmap string value).

Lemma cast_set_fields_declared f prefix
    (fields : list (string * schema_path)) (given a : gmap string value)
    k p v :
  NoDup fields.*1 → (k, p) ∈ fields →
  cast_set_fields f prefix fields given = Some a → given !! k = Some v →
  is_Some (a !! k) ∧ a !! k = f (prefix +:+ k) p v.
Proof.
  revert a. induction fields as [|kp fs IH]; intros a.
  { intros _ []%elem_of_nil. }
  rewrite fmap_cons, NoDup_cons, elem_of_cons. intros [Hfresh Hnd] Hin.
  rewrite cast_set_fields_cons. intros (a0 & Ha0 & Ha)%bind_Some Hv.
  destruct Hin as [<-|Hin]; simpl in *.
  - rewrite Hv in Ha. apply bind_Some in Ha as (x & Hx & [= <-]).
    rewrite lookup_insert_eq, Hx. split; [by eexists|done].
  - assert (kp.1 ≠ k) as Hne.
    { intros <-. apply Hfresh. apply list_elem_of_fmap. by exists (kp.1, p). }
    destruct (given !! kp.1) as [w|].
    + apply bind_Some in Ha as (x & _ & [= <-]).
      rewrite lookup_insert_ne by done. by apply IH.
    + injection Ha as <-. by apply IH.
Qed.

Lemma cast_set_declared (sch : schema) (set s : gmap string value) k p v :
  NoDup sch.*1 → (k, p) ∈ sch → k ≠ "_id" →
  cast_set sch set = Some s → set !! k = Some v →
  is_Some (s !! k) ∧ s !! k = cast_set_path k p v.
Proof.
  intros Hnd Hin Hk. unfold cast_set. intros (a & Ha & Hs)%bind_Some Hv.
  destruct (cast_set_fields_declared _ _ _ _ _ _ _ _ Hnd Hin Ha Hv) as [H1 H2].
  destruct (set !! "_id") as [w|].
  - apply bind_Some in Hs as (x & _ & [= <-]).
    by rewrite lookup_insert_ne by done.
  - by injection Hs as <-.
Qed.

Lemma set_keeps_id (s d : gmap string value) :
  ¬ (is_Some (s !! "_id") ∧ s !! "_id" ≠ d !! "_id") →
  (s ∪ d) !! "_id" = d !! "_id".
Proof.
  intros Hsame. destruct (s !! "_id") as [v|] eqn:Hs.
  - rewrite (lookup_union_Some_l _ _ _ _ Hs).
    destruct (decide (Some v = d !! "_id")) as [|Hne]; [done|].
    destruct Hsame. split; [by eexists|done].
  - by apply lookup_union_r.
Qed.

(** X9. When [updateUser] reports a match, the user of that key keeps its
    key, takes for each supplied field that the schema declares the
    supplied value cast to the declared type, keeps every field the object
    omits, and is what [findUserById] of the key then resolves to. *)
Theorem updateUser_sets sch (userId : string) (user : gmap string value)
    e c n c' :
  NoDup (paths sch).*1 →
  UserDao.updateUser sch userId user e c
  = (Resolved (Acknowledged 1 n), c') →
  ∃ i d d',
    c !! i = Some d ∧ d !! "_id" = Some (VStr userId) ∧
    c' = <[i := d']> c ∧ d' !! "_id" = Some (VStr userId) ∧
    (∀ k t required default v,
       (k, Path t required default) ∈ paths sch → k ≠ "_id" →
       user !! k = Some v → is_Some (d' !! k) ∧ d' !! k = cast t v) ∧
    (∀ k, user !! k = None → d' !! k = d !! k) ∧
    (∀ e', UserDao.findUserById userId e' c' = (Resolved (Some d'), c')).
Proof.
  intros Hnd. unfold UserDao.updateUser, updateOne.
  destruct (cast_set (paths sch) user) as [s|] eqn:Hs; [|done].
  destruct (decide (s = ∅)); [done|].
  destruct (first_match _ c) as [[i d]|] eqn:Hfm; [|done].
  destruct (decide _) as [|Hsame]; [done|]. intros [= _ <-].
  pose proof Hfm as (Hi & Hid%matches_id & _)%first_match_Some.
  pose proof (set_keeps_id s d Hsame) as Hkeep. rewrite Hid in Hkeep.
  exists i, d, (s ∪ d). split_and!; [done..| | |].
  - intros k t required default v Hin Hk Hv.
    destruct (cast_set_declared _ _ _ _ _ _ Hnd Hin Hk Hs Hv) as [[x Hx] Hc].
    rewrite (lookup_union_Some_l _ _ _ _ Hx).
    split; [by eexists|]. rewrite <- Hx. exact Hc.
  - intros k Hk. apply lookup_union_r. by eapply cast_set_supplied.
  - intros e'. unfold UserDao.findUserById, findById, findOne.
    rewrite (first_match_insert _ c i d (s ∪ d) Hfm); [done|].
    by apply matches_id.
Qed.

(** X10. [updateUser] of a key that no stored user has never inserts: the
    collection is unchanged, and the outcome reports no match. *)
Theorem updateUser_absent sch (userId : string) (user : gmap string value)
    e c :
  Forall (λ d, d !! "_id" ≠ Some (VStr userId)) c →
  ∃ r, UserDao.updateUser sch userId user e c = (r, c) ∧
    (r = Rejected (CastError "$set") ∨ r = Resolved Unacknowledged ∨
     r = Resolved (Acknowledged 0 0)).
Proof.
  intros Hnone. unfold UserDao.updateUser, updateOne.
  rewrite (no_id_no_match _ _ Hnone).
  destruct (cast_set (paths sch) user) as [s|]; [|eauto].
  destruct (decide (s = ∅)); eauto.
Qed.

End updates_more.

Section schemas_more.
Import Mongoose Samples.
Implicit Types (sch : Schema) (c : collection) (d body : gmap string value).


(** X12. A created tuit has no field beyond its primary key, its version key
    and the paths its schema declares: what else the body carries is
    dropped. *)
Theorem created_keys_declared sch body e c d c' k :
  sch = mongoose_TuitSchema.TuitSchema ∨ sch = part_001.TuitSchema →
  create sch body e c = (Resolved d, c') →
  is_Some (d !! k) →
  k ∈ ["_id"; "__v"; "tuit"; "postedBy"; "postedOn"] ∨
  (sch = part_001.TuitSchema ∧ k ∈ "stats" :: media).
Proof.
  intros Hsch Hc Hk.
  destruct (decide (k = "_id")) as [->|H1];
    [left; apply list_elem_of_In; simpl; tauto|].
  destruct (decide (k = "__v")) as [->|H2];
    [left; apply list_elem_of_In; simpl; tauto|].
  destruct (decide (k ∈ (paths sch).*1)) as [Hin|Hout].
  - destruct Hsch as [-> | ->]; apply list_elem_of_In in Hin; simpl in Hin.
    + left. apply list_elem_of_In; simpl. tauto.
    + destruct_or!; subst; try done;
        first [ left; apply list_elem_of_In; simpl; tauto
              | right; split; [done|]; apply list_elem_of_In; simpl; tauto ].
  - rewrite (create_undeclared _ _ _ _ _ _ _ Hc Hout H1 H2) in Hk.
    by destruct Hk.
Qed.

Lemma full_stats_fields body e c d c' :
  create part_001.TuitSchema body e c = (Resolved d, c') →
  ∃ fs (o : gmap string value),
    NoDup fs.*1 ∧ fs.*1 = counters ∧
    (∀ k, k ∈ counters →
          (k, Path SNumber false (Some (DValue (VNum 0)))) ∈ fs) ∧
    (body !! "stats" = None ∧ o = ∅ ∨ body !! "stats" = Some (VObj o)) ∧
    d !! "stats"
    = (let r := apply_fields (apply_path (now e)) "stats." fs o in
       if decide (r.1 = ∅) then None else Some (VObj r.1)).
Proof.
  intros Hc.
  assert (∃ fs, ("stats", Nested fs) ∈ paths part_001.TuitSchema ∧
            NoDup fs.*1 ∧ fs.*1 = counters ∧
            ∀ k, k ∈ counters →
                 (k, Path SNumber false (Some (DValue (VNum 0)))) ∈ fs)
    as (fs & Hin & Hnd & Hnames & Hfs).
  { eexists. split_and!.
    - repeat first [apply list_elem_of_here | apply list_elem_of_further].
    - apply (bool_decide_unpack _). by vm_compute.
    - reflexivity.
    - intros k Hk. unfold counters in Hk.
      rewrite !elem_of_cons, elem_of_nil in Hk. apply list_elem_of_In; simpl.
      destruct_or!; subst; tauto. }
  destruct (create_field _ _ _ _ _ _ _ _ Hc full_NoDup Hin) as [Hd Hok];
    [done..|].
  destruct (body !! "stats") as [[| | | | | |o]|] eqn:Hs; try done.
  - exists fs, o. split_and!; [done..|by right|exact Hd].
  - exists fs, ∅. split_and!; [done..|by left|exact Hd].
Qed.

(** X13. Under the declaration with [stats], a counter and a [postedOn] that
    the body supplies are stored instead of their defaults, and the stored
    [stats] has no key beyond the six counters. *)
Theorem supplied_values_kept body e c d c' :
  create part_001.TuitSchema body e c = (Resolved d, c') →
  (∀ k n, k ∈ counters → counter body k = Some (VNum n) →
          counter d k = Some (VNum n)) ∧
  (∀ t, body !! "postedOn" = Some (VDate t) ∨
        body !! "postedOn" = Some (VNum t) →
        d !! "postedOn" = Some (VDate t)) ∧
  (∀ k, is_Some (counter d k) → k ∈ counters).
Proof.
  intros Hc.
  destruct (full_stats_fields body e c d c' Hc)
    as (fs & o & Hnd & Hnames & Hfs & Ho & Hd).
  cbv zeta in Hd. split_and!.
  - intros k n Hk Hb.
    assert (o !! k = Some (VNum n)) as Hok.
    { unfold counter in Hb. destruct Ho as [[Hs ->]|Hs]; rewrite Hs in Hb;
        [done|exact Hb]. }
    pose proof (apply_fields_declared (apply_path (now e)) "stats."
                  fs o k _ Hnd (Hfs k Hk)) as Hlk.
    rewrite Hok in Hlk. simpl in Hlk.
    unfold counter. rewrite Hd.
    destruct (decide _) as [Hemp|_]; [|done].
    by rewrite Hemp, lookup_empty in Hlk.
  - intros t Ht.
    assert (d !! "postedOn" =
            (apply_path (now e) "postedOn" (Path SDate false (Some DNow))
               (body !! "postedOn")).1) as ->.
    { eapply create_field; [done|apply full_NoDup| |done..].
      apply list_elem_of_In; simpl; tauto. }
    by destruct Ht as [-> | ->].
  - intros k Hk. unfold counter in Hk. rewrite Hd in Hk.
    destruct (decide _); [by destruct Hk|].
    destruct (decide (k ∈ fs.*1)) as [Hin|Hout]; [by rewrite <- Hnames|].
    rewrite (apply_fields_undeclared _ _ _ _ _ Hout) in Hk. by destruct Hk.
Qed.

End schemas_more.

(** ** Registration and dispatch of the routes *)

Section routing_more.
Import Express.

Lemma match_tuits u ps :
  match_path "/tuits" u = Some ps →
  ∃ s rest, split "/" u = "" :: s :: rest ∧ lowercase s = "tuits" ∧
            (rest = [] ∨ rest = [""]) ∧ ps = ∅.
Proof.
  unfold match_path.
  change (split "/" "/tuits") with [""; "tuits"].
  destruct (split "/" u) as [|[|] segs]; [done| |done].
  change (segment_of <$> ["tuits"]) with [Lit "tuits"].
  intros (s & rest & -> & Hs & H)%match_segments_Lit.
  apply match_segments_nil in H as [Hrest ->].
  by exists s, rest.
Qed.

Lemma match_tuits_only u ps :
  match_path "/tuits" u = Some ps →
  match_path "/users/:uid/tuits" u = None.
Proof.
  intros (s & rest & Hu & Hs & _ & _)%match_tuits.
  unfold match_path. rewrite Hu.
  change (match_segments [Lit "users"; Param "uid"; Lit "tuits"] (s :: rest)
          = None).
  destruct (match_segments _ _) as [ps'|] eqn:H; [|done].
  apply match_segments_Lit in H as (? & ? & [= <- <-] & H & _).
  rewrite Hs in H. done.
Qed.

Lemma paths_disjoint p1 p2 u :
  p1 ∈ ["/tuits"; "/users/:uid/tuits"; "/tuits/:tid"] →
  p2 ∈ ["/tuits"; "/users/:uid/tuits"; "/tuits/:tid"] →
  is_Some (match_path p1 u) → is_Some (match_path p2 u) → p1 = p2.
Proof.
  rewrite !elem_of_cons, !elem_of_nil.
  intros H1 H2 [ps1 Hm1] [ps2 Hm2].
  destruct_or!; subst; try done;
    first [ apply match_tuits_tid_only in Hm1 as [? ?]
          | apply match_tuits_tid_only in Hm2 as [? ?]
          | apply match_tuits_only in Hm1
          | apply match_tuits_only in Hm2 ]; congruence.
Qed.

Lemma handle_app app l m :
  handle (app ++ l) m
  = match handle app m with
    | Some h => Some h
    | None => handle l m
    end.
Proof.
  induction app as [|r app IH]; simpl; [done|].
  destruct (decide _); [|done]. by destruct (match_path _ _).
Qed.

Lemma handle_callback app m h :
  handle app m = Some h →
  ∃ i r ps, app !! i = Some r ∧ route_verb r = verb m ∧
    match_path (route_path r) (url m) = Some ps ∧
    h = callback r {| params := ps; body := payload m |} fresh.
Proof.
  induction app as [|r app IH]; simpl; [done|].
  destruct (decide _) as [Hv|].
  - destruct (match_path _ _) as [ps|] eqn:Hp.
    + intros [= <-]. by exists 0, r, ps.
    + intros (i & r' & ps & ? & ? & ? & ?)%IH. by exists (S i), r', ps.
  - intros (i & r' & ps & ? & ? & ? & ?)%IH. by exists (S i), r', ps.
Qed.

End routing_more.

Section controller_more.
Import Mongoose Express TuitController Samples.
Implicit Types (tuitDao : TuitDaoI.t) (m : IncomingMessage).

(** X14. [TuitController.getInstance] registers the six routes only while
    the static field is null, after the routes the application already
    has, which keep handling what they handled; once the field is set, a
    call leaves any application as it is. *)
Theorem getInstance_registers_once tuitDao
    (tuitController : option TuitController.TuitController) (app : list Route) :
  let r := getInstance tuitDao tuitController app in
  is_Some r.1 ∧
  (∀ app', getInstance tuitDao r.1 app' = (r.1, app')) ∧
  (tuitController = None → r.2 = app ++ server tuitDao) ∧
  (is_Some tuitController → r.2 = app) ∧
  (∀ m h, handle app m = Some h → handle r.2 m = Some h).
Proof.
  destruct tuitController as [tc|]; simpl.
  - split; [by eexists|]. split; [done|]. split; [done|]. by split.
  - split; [by eexists|]. split; [done|]. split; [|split].
    + intros _. unfold register. by rewrite <- !app_assoc.
    + by intros [? [=]].
    + intros m h Hh. unfold register. rewrite <- !app_assoc.
      by rewrite handle_app, Hh.
Qed.

(** X15. No request is matched by two of the registered routes: which
    handler runs does not depend on the order of registration. *)
Theorem one_route_per_request tuitDao m i j r1 r2 :
  server tuitDao !! i = Some r1 → server tuitDao !! j = Some r2 →
  route_verb r1 = verb m → route_verb r2 = verb m →
  is_Some (match_path (route_path r1) (url m)) →
  is_Some (match_path (route_path r2) (url m)) →
  i = j.
Proof.
  rewrite server_routes. intros Hi Hj Hv1 Hv2 Hm1 Hm2.
  assert (route_verb r1 = route_verb r2) as Hv by congruence.
  clear Hv1 Hv2.
  repeat (destruct i as [|i];
          [simpl in Hi; injection Hi as <-|simpl in Hi; try done]);
    (repeat (destruct j as [|j];
             [simpl in Hj; injection Hj as <-|simpl in Hj; try done]));
    simpl in Hv; try done;
    simpl in Hm1, Hm2;
    match goal with
    | H1 : is_Some (match_path ?p1 _), H2 : is_Some (match_path ?p2 _) |- _ =>
        assert (p1 = p2) as Heq
          by (apply (paths_disjoint p1 p2 (url m));
              [apply list_elem_of_In; simpl; tauto..|done|done]);
        discriminate Heq
    end.
Qed.

End controller_more.

(** ** The handlers that list tuits, and what every handler answers *)

Section handlers_more.
Import Mongoose Express TuitController Samples.
Implicit Types (tuitDao : TuitDaoI.t) (m : IncomingMessage) (sch : Schema).

Lemma handle_get_tuits tuitDao m ps :
  verb m = GET → match_path "/tuits" (url m) = Some ps →
  handle (server tuitDao) m
  = Some (findAllTuits tuitDao {| params := ps; body := payload m |} fresh).
Proof.
  intros Hv Hp. rewrite server_routes. by rewrite (handle_hit _ _ _ ps).
Qed.

Lemma handle_get_user_tuits tuitDao m ps :
  verb m = GET → match_path "/users/:uid/tuits" (url m) = Some ps →
  handle (server tuitDao) m
  = Some (findTuitsByUser tuitDao {| params := ps; body := payload m |} fresh).
Proof.
  intros Hv Hp. rewrite server_routes.
  rewrite handle_miss.
  - by rewrite (handle_hit _ _ _ ps).
  - simpl. destruct (match_path "/tuits" (url m)) as [ps'|] eqn:Hp'; [|done].
    apply match_tuits_only in Hp'. congruence.
Qed.

(** X16. Whatever the DAO does, a response of the controller has status 200
    and a body: no handler sets another status or answers without a
    body. *)
Theorem responses_are_200 tuitDao m e c p c' :
  serve (server tuitDao) m e c = Some (p, c') →
  match p with
  | Resolved res => statusCode res = 200 ∧ is_Some (sent res)
  | Rejected _ => True
  end.
Proof.
  unfold serve. destruct (handle _ m) as [h|] eqn:Hh; [|done].
  simpl. intros [= Hrun].
  apply handle_callback in Hh as (i & r & ps & Hi & _ & _ & ->).
  rewrite server_routes in Hi.
  repeat (destruct i as [|i];
          [simpl in Hi; injection Hi as <-|simpl in Hi; try done]);
    simpl in Hrun;
    unfold findAllTuits, findTuitsByUser, findTuitById, createTuit, deleteTuit,
      updateTuit, then_ in Hrun;
    match type of Hrun with
    | context [match ?x with _ => _ end] => destruct x as [[?|?] ?]
    end;
    injection Hrun as <- <-; try done; (split; [done|by eexists]).
Qed.

(** X17. GET [/tuits] answers 200 with every stored tuit, in order, and
    leaves the collection as it is. *)
Theorem get_tuits_lists_all sch m ps e c :
  verb m = GET → match_path "/tuits" (url m) = Some ps →
  serve (server (TuitDao.getInstance sch)) m e c
  = Some (Resolved {| statusCode := 200; sent := Some (VArr (VObj <$> c)) |},
          c).
Proof.
  intros Hv Hp. unfold serve. rewrite (handle_get_tuits _ m ps Hv Hp).
  unfold findAllTuits, then_; simpl.
  unfold TuitDao.findAllTuits, find. by rewrite filter_everything.
Qed.

(** X18. GET [/users/:uid/tuits] answers 200 with exactly the stored tuits
    whose [postedBy] is [uid], in their order, the empty array when there
    is none, and leaves the collection as it is. *)
Theorem get_user_tuits_lists_own sch m ps e c :
  verb m = GET → match_path "/users/:uid/tuits" (url m) = Some ps →
  ∃ uid l,
    ps !! "uid" = Some uid ∧
    serve (server (TuitDao.getInstance sch)) m e c
    = Some (Resolved {| statusCode := 200; sent := Some (VArr (VObj <$> l)) |},
            c) ∧
    l `sublist_of` c ∧
    (∀ d, d ∈ l ↔ d ∈ c ∧ d !! "postedBy" = Some (VStr uid)) ∧
    (Forall (λ d, d !! "postedBy" ≠ Some (VStr uid)) c → l = []).
Proof.
  intros Hv Hp. unfold serve. rewrite (handle_get_user_tuits _ m ps Hv Hp).
  destruct (match_users_uid_tuits _ _ Hp) as (uid & _ & ->).
  unfold findTuitsByUser, then_; simpl. rewrite lookup_singleton_eq.
  unfold TuitDao.findTuitsByUser, find.
  assert (∀ d, matches [("postedBy", Some uid)] d = true
               ↔ d !! "postedBy" = Some (VStr uid)) as Hm.
  { intros d. unfold matches; simpl. rewrite andb_true_r.
    apply matches_text. }
  exists uid, (List.filter (matches [("postedBy", Some uid)]) c).
  split_and!; [done|done|apply filter_sublist| |].
  - intros d. rewrite filter_elem_of. specialize (Hm d). tauto.
  - intros Hnone. destruct (List.filter _ c) as [|d l] eqn:Hf; [done|].
    assert (d ∈ List.filter (matches [("postedBy", Some uid)]) c) as Hin
      by (rewrite Hf; apply list_elem_of_here).
    apply filter_elem_of in Hin as [Hin Hd]. apply Hm in Hd.
    by destruct (proj1 (Forall_forall _ _) Hnone d Hin).
Qed.

Lemma post_creates sch (p : IncomingMessage) ps e c res c' :
  verb p = POST →
  match_path "/users/:uid/tuits" (url p) = Some ps →
  serve (server (TuitDao.getInstance sch)) p e c = Some (Resolved res, c') →
  ∃ uid d,
    ps = {[ "uid" := uid ]} ∧
    res = {| statusCode := 200; sent := Some (VObj d) |} ∧
    create sch (<["postedBy" := VStr uid]> (payload p)) e c = (Resolved d, c').
Proof.
  intros Hv Hp. unfold serve.
  rewrite (handle_post_tuit _ p ps Hv Hp).
  destruct (match_users_uid_tuits _ _ Hp) as (uid & _ & ->).
  unfold createTuit, then_; simpl. rewrite lookup_singleton_eq.
  unfold TuitDao.createTuit.
  destruct (create sch _ e c) as [[d|err] c''] eqn:Hc; intros [= <- <-].
  by exists uid, d.
Qed.

(** X19. After POST [/users/:uid/tuits] has answered with a tuit, GET
    [/tuits/:tid] with the key of that tuit answers the same document, and
    GET [/users/:uid/tuits] of the same user answers what it did before
    followed by it. *)
Theorem post_then_get sch (p : IncomingMessage) ps e c res c' :
  sch = mongoose_TuitSchema.TuitSchema ∨ sch = part_001.TuitSchema →
  verb p = POST →
  match_path "/users/:uid/tuits" (url p) = Some ps →
  serve (server (TuitDao.getInstance sch)) p e c = Some (Resolved res, c') →
  ∃ id d,
    sent res = Some (VObj d) ∧ d !! "_id" = Some (VStr id) ∧
    (∀ g e', verb g = GET →
       match_path "/tuits/:tid" (url g) = Some {[ "tid" := id ]} →
       serve (server (TuitDao.getInstance sch)) g e' c'
       = Some (Resolved {| statusCode := 200; sent := Some (VObj d) |}, c')) ∧
    (∀ g e', verb g = GET →
       match_path "/users/:uid/tuits" (url g) = Some ps →
       ∃ l, serve (server (TuitDao.getInstance sch)) g e' c
            = Some (Resolved {| statusCode := 200;
                                sent := Some (VArr (VObj <$> l)) |}, c) ∧
            serve (server (TuitDao.getInstance sch)) g e' c'
            = Some (Resolved {| statusCode := 200;
                                sent := Some (VArr (VObj <$> (l ++ [d]))) |},
                    c')).
Proof.
  intros Hsch Hv Hp Hrun.
  destruct (post_creates sch p ps e c res c' Hv Hp Hrun)
    as (uid & d & -> & -> & Hc).
  assert (d !! "postedBy" = Some (VStr uid)) as Hby.
  { assert (d !! "postedBy" =
            (apply_path (now e) "postedBy" (Path SObjectId false None)
               (<["postedBy" := VStr uid]> (payload p) !! "postedBy")).1)
      as ->.
    { destruct Hsch as [-> | ->].
      - eapply create_field; [done|apply short_NoDup| |done..].
        apply list_elem_of_In; simpl; tauto.
      - eapply create_field; [done|apply full_NoDup| |done..].
        apply list_elem_of_In; simpl; tauto. }
    by rewrite lookup_insert_eq. }
  apply create_Resolved in Hc as (id & _ & _ & Hfresh & Hd & ->).
  assert (d !! "_id" = Some (VStr id)) as Hid
    by (by rewrite Hd, lookup_insert_eq).
  apply has_id_false in Hfresh.
  exists id, d. split_and!; [done..| |].
  - intros g e' Hg Hpg. unfold serve.
    rewrite (handle_get_tuit _ g _ Hg Hpg).
    unfold findTuitById, then_; simpl. rewrite lookup_singleton_eq.
    unfold TuitDao.findTuitById, findById, findOne.
    rewrite (first_match_app_r _ c d); [done| |by apply matches_id].
    eapply Forall_impl; [exact Hfresh|]. intros d0 Hd0; cbv beta in *.
    apply no_match_false. by rewrite matches_id.
  - intros g e' Hg Hpg. unfold serve.
    rewrite (handle_get_user_tuits _ g _ Hg Hpg).
    unfold findTuitsByUser, then_; simpl. rewrite lookup_singleton_eq.
    unfold TuitDao.findTuitsByUser, find.
    eexists. split; [reflexivity|].
    assert (matches [("postedBy", Some uid)] d = true) as Hmd.
    { unfold matches; simpl. rewrite andb_true_r. by apply matches_text. }
    rewrite List.filter_app. cbn [List.filter]. by rewrite Hmd.
Qed.

End handlers_more.

(** ** Instances *)

Section witnesses.
Import Mongoose Express TuitController Samples.

Lemma UserDao_getInstance_singleton_witness :
  UserDao.getInstance {| UserDao.userDao := Some 0; UserDao.allocated := 1 |}
  = ({| UserDao.userDao := Some 0; UserDao.allocated := 1 |}, 0).
Proof.
  destruct (UserDao_getInstance_singleton
              {| UserDao.userDao := None; UserDao.allocated := 0 |})
    as (_ & Hagain & _ & _).
  exact Hagain.
Defined.

Lemma createUser_then_find_witness :
  UserDao.findUserById "u3" e0 [alice; bob; carol_stored]
  = (Resolved (Some carol_stored), [alice; bob; carol_stored]).
Proof.
  destruct (createUser_then_find UserSchema carol e1 [alice; bob]
              (Resolved carol_stored) [alice; bob; carol_stored])
    as (_ & id & Hid & _ & Hfind & _).
  - vm_compute; reflexivity.
  - assert (id = "u3") as -> by (vm_compute in Hid; congruence).
    apply Hfind.
Defined.

Lemma deleteUsersByUsername_exact_witness :
  ∃ n, Resolved {| deletedCount := 2 |} = Resolved {| deletedCount := n |} ∧
    n + length [bob] = length [alice; bob; alice2] ∧
    [bob] `sublist_of` [alice; bob; alice2] ∧
    (∀ d, d ∈ [bob] ↔
          d ∈ [alice; bob; alice2] ∧ d !! "username" ≠ Some (VStr "alice")) ∧
    (n = 0 ↔ Forall (λ d : gmap string value,
                       d !! "username" ≠ Some (VStr "alice"))
                    [alice; bob; alice2]) ∧
    ∀ e', UserDao.findUserByUsername "alice" e' [bob] = (Resolved None, [bob]).
Proof.
  apply (deleteUsersByUsername_exact "alice" e0).
  vm_compute; reflexivity.
Defined.

Lemma credentials_imply_username_witness :
  ∃ d', UserDao.findUserByUsername "alice" e0 [alice; bob; alice2]
        = (Resolved (Some d'), [alice; bob; alice2]) ∧
        d' !! "username" = Some (VStr "alice").
Proof.
  apply (credentials_imply_username "alice" "sulaco" e0 _ alice2).
  vm_compute; reflexivity.
Defined.

Lemma UserDao_keeps_keys_witness :
  keyed (foldl (perform UserSchema) [alice; bob]
           [(e1, CreateUser carol); (e0, DeleteUser "u1");
            (e0, UpdateUser "u2" new_password)]).
Proof.
  destruct (UserDao_keeps_keys UserSchema
              [(e1, CreateUser carol); (e0, DeleteUser "u1");
               (e0, UpdateUser "u2" new_password)]) as [_ Hfrom].
  apply Hfrom. split.
  - repeat constructor; eexists; vm_compute; reflexivity.
  - apply (bool_decide_unpack _). vm_compute. exact I.
Defined.

Lemma deleteUser_then_find_witness :
  UserDao.deleteUser "u2" e0 [alice; bob; alice2]
  = (Resolved {| deletedCount := 1 |}, [alice; alice2]).
Proof.
  destruct (deleteUser_then_find "u2" e0 [alice; bob; alice2] 1 bob)
    as (Hdel & _ & _).
  - split.
    + repeat constructor; eexists; vm_compute; reflexivity.
    + apply (bool_decide_unpack _). vm_compute. exact I.
  - reflexivity.
  - vm_compute; reflexivity.
  - exact Hdel.
Defined.

Lemma updateUser_sets_witness :
  ∃ i d d',
    [alice; bob] !! i = Some d ∧ d !! "_id" = Some (VStr "u1") ∧
    [alice'; bob] = <[i := d']> [alice; bob] ∧
    d' !! "_id" = Some (VStr "u1") ∧
    (∀ k t required default v,
       (k, Path t required default) ∈ paths UserSchema → k ≠ "_id" →
       new_password !! k = Some v → is_Some (d' !! k) ∧ d' !! k = cast t v) ∧
    (∀ k, new_password !! k = None → d' !! k = d !! k) ∧
    (∀ e', UserDao.findUserById "u1" e' [alice'; bob]
           = (Resolved (Some d'), [alice'; bob])).
Proof.
  apply (updateUser_sets UserSchema "u1" new_password e0 [alice; bob] 1).
  - apply (bool_decide_unpack _). vm_compute. exact I.
  - vm_compute; reflexivity.
Defined.

Lemma updateUser_absent_witness :
  ∃ r, UserDao.updateUser UserSchema "u9" new_password e0 [alice; bob]
       = (r, [alice; bob]) ∧
    (r = Rejected (CastError "$set") ∨ r = Resolved Unacknowledged ∨
     r = Resolved (Acknowledged 0 0)).
Proof.
  apply updateUser_absent.
  apply (bool_decide_unpack _). vm_compute. exact I.
Defined.


Lemma created_keys_declared_witness :
  "postedOn" ∈ ["_id"; "__v"; "tuit"; "postedBy"; "postedOn"] ∨
  (mongoose_TuitSchema.TuitSchema = part_001.TuitSchema ∧
   "postedOn" ∈ "stats" :: media).
Proof.
  apply (created_keys_declared mongoose_TuitSchema.TuitSchema picture e0 []
           picture_short [picture_short]).
  - left; reflexivity.
  - vm_compute; reflexivity.
  - eexists. vm_compute; reflexivity.
Defined.

Lemma supplied_values_kept_witness :
  counter liked_stored "likes" = Some (VNum 3) ∧
  liked_stored !! "postedOn" = Some (VDate 5).
Proof.
  destruct (supplied_values_kept liked e0 [] liked_stored [liked_stored])
    as (Hcount & Hon & _).
  - vm_compute; reflexivity.
  - split.
    + apply Hcount; [|vm_compute; reflexivity].
      apply list_elem_of_In; simpl; tauto.
    + apply Hon. right. vm_compute; reflexivity.
Defined.

Lemma getInstance_registers_once_witness :
  (getInstance (TuitDao.getInstance part_001.TuitSchema) None []).2
  = [] ++ server (TuitDao.getInstance part_001.TuitSchema).
Proof.
  destruct (getInstance_registers_once
              (TuitDao.getInstance part_001.TuitSchema) None [])
    as (_ & _ & Hnew & _).
  by apply Hnew.
Defined.

Lemma one_route_per_request_witness : 0 = 0.
Proof.
  apply (one_route_per_request (TuitDao.getInstance part_001.TuitSchema)
           (get "/tuits/") 0 0 _ _ eq_refl eq_refl eq_refl eq_refl).
  - eexists. vm_compute; reflexivity.
  - eexists. vm_compute; reflexivity.
Defined.

Lemma responses_are_200_witness :
  statusCode {| statusCode := 200; sent := Some (VObj stored) |} = 200 ∧
  is_Some (sent {| statusCode := 200; sent := Some (VObj stored) |}).
Proof.
  apply (responses_are_200 (TuitDao.getInstance part_001.TuitSchema)
           (get "/tuits/t0") e0 [stored] (Resolved _) [stored]).
  vm_compute; reflexivity.
Defined.

Lemma get_tuits_lists_all_witness :
  serve (server (TuitDao.getInstance part_001.TuitSchema)) (get "/tuits") e0
        [stored; created_by_u1]
  = Some (Resolved {| statusCode := 200;
                      sent := Some (VArr (VObj <$> [stored; created_by_u1])) |},
          [stored; created_by_u1]).
Proof.
  apply (get_tuits_lists_all _ _ ∅); [reflexivity|vm_compute; reflexivity].
Defined.

Lemma get_user_tuits_lists_own_witness :
  ∃ uid l,
    ({[ "uid" := "u7" ]} : gmap string string) !! "uid" = Some uid ∧
    serve (server (TuitDao.getInstance part_001.TuitSchema))
          (get "/users/u7/tuits") e0 [stored]
    = Some (Resolved {| statusCode := 200;
                        sent := Some (VArr (VObj <$> l)) |}, [stored]) ∧
    l `sublist_of` [stored] ∧
    (∀ d, d ∈ l ↔ d ∈ [stored] ∧ d !! "postedBy" = Some (VStr uid)) ∧
    (Forall (λ d : gmap string value, d !! "postedBy" ≠ Some (VStr uid))
            [stored] → l = []).
Proof.
  apply (get_user_tuits_lists_own part_001.TuitSchema (get "/users/u7/tuits")).
  - reflexivity.
  - vm_compute; reflexivity.
Defined.

Lemma post_then_get_witness :
  serve (server (TuitDao.getInstance part_001.TuitSchema)) (get "/tuits/t1")
        e1 [stored; created_by_u1]
  = Some (Resolved {| statusCode := 200; sent := Some (VObj created_by_u1) |},
          [stored; created_by_u1]).
Proof.
  destruct (post_then_get part_001.TuitSchema
              (post "/users/u1/tuits" claimed) {[ "uid" := "u1" ]} e0 [stored]
              {| statusCode := 200; sent := Some (VObj created_by_u1) |}
              [stored; created_by_u1])
    as (id & d & [= <-] & Hid & Hget & _).
  - right; reflexivity.
  - reflexivity.
  - vm_compute; reflexivity.
  - vm_compute; reflexivity.
  - assert (id = "t1") as -> by (vm_compute in Hid; congruence).
    apply Hget; [reflexivity|vm_compute; reflexivity].
Defined.

End witnesses.
